(** * Verkehrsplanung backend: rule merging and cross-section validation

    A shallow embedding of the validator of [src/index.js] (the first
    program of the file, the one with the German form-field names and
    field-tagged violations): the helpers [toNumber], [toBool] and
    [addError], the rule catalog, [buildRules] and
    [validateDesignWithStandards]. The HTTP routes and the earlier versions
    of the validator kept in the repository are not modelled.

    JavaScript numbers are IEEE 754 binary64 values and are modelled by Rocq's
    primitive [float]; strings are byte strings holding the UTF-8 encoding of
    the JavaScript string; the rule tables are objects living in a store of
    objects, so that the copies made by object spread and the in-place
    property writes of [buildRules] are visible. *)

From Stdlib Require Import ZArith Floats String Ascii List Bool Lia.
From Stdlib Require Import DecimalString.
From stdpp Require Import gmap strings.

Set Warnings "-inexact-float".
Local Open Scope string_scope.

(** ** The host language: numbers, strings and their conversions *)

Module JS.

(** [Number.isFinite(n)] for a value that already is a Number. *)
Definition isFinite (n : float) : bool := is_finite n.

(** Truthiness of a Number ([!n] is its negation): [0], [-0] and [NaN] are
    falsy, every other number is truthy. *)
Definition truthy (n : float) : bool := negb (is_zero n || is_nan n).

(** [Math.max(x, y)]: [NaN] when either argument is, and [+0] counts as larger
    than [-0]. *)
Definition Math_max (x y : float) : float :=
  if is_nan x || is_nan y then nan
  else if (x <? y)%float then y
  else if (y <? x)%float then x
  else if get_sign x then y else x.

(** The binary64 value nearest to [(-1)^neg * c * 10^j] (ties to even), for
    [0 <= c]; this is how a decimal literal becomes a Number. *)
Definition of_decimal (neg : bool) (c j : Z) : float :=
  match c with
  | Zpos p =>
      SF2Prim
        (if (0 <=? j)%Z
         then binary_normalize prec emax
                (if neg then (- (c * 10 ^ j))%Z else (c * 10 ^ j)%Z) 0%Z false
         else SFdiv prec emax (S754_finite neg p 0%Z)
                (S754_finite false (Z.to_pos (10 ^ (- j))) 0%Z))
  | _ => if neg then neg_zero else PrimFloat.zero
  end.

(** *** Strings *)

Definition is_digit (c : ascii) : bool :=
  (48 <=? nat_of_ascii c)%nat && (nat_of_ascii c <=? 57)%nat.

Definition digit_val (c : ascii) : Z := (Z.of_nat (nat_of_ascii c) - 48)%Z.

(** Value of a hexadecimal digit, if it is one. *)
Definition hex_val (c : ascii) : option Z :=
  let n := nat_of_ascii c in
  if is_digit c then Some (digit_val c)
  else if (97 <=? n)%nat && (n <=? 102)%nat then Some (Z.of_nat n - 87)%Z
  else if (65 <=? n)%nat && (n <=? 70)%nat then Some (Z.of_nat n - 55)%Z
  else None.

Definition lower_ascii (c : ascii) : ascii :=
  let n := nat_of_ascii c in
  if (65 <=? n)%nat && (n <=? 90)%nat then ascii_of_nat (n + 32) else c.

(** [s.toLowerCase()]. Only the letters A-Z are folded. The program compares
    the result with lower-case ASCII words; a non-ASCII character folds to
    ASCII letters alone in one case only, the Kelvin sign to k, and none of
    these words has a k. *)
Fixpoint toLowerCase (s : string) : string :=
  match s with
  | EmptyString => EmptyString
  | String c s' => String (lower_ascii c) (toLowerCase s')
  end.

(** Removes leading white space and line terminators, given as UTF-8 bytes:
    TAB, LF, VT, FF, CR, SP, U+00A0, U+1680, U+2000-U+200A, U+2028, U+2029,
    U+202F, U+205F, U+3000 and U+FEFF. *)
Fixpoint trim_start (l : list ascii) : list ascii :=
  match l with
  | c :: l1 =>
      let n := nat_of_ascii c in
      if ((9 <=? n) && (n <=? 13) || (n =? 32))%nat then trim_start l1
      else
        match l1 with
        | c1 :: l2 =>
            let n1 := nat_of_ascii c1 in
            if ((n =? 194) && (n1 =? 160))%nat then trim_start l2
            else
              match l2 with
              | c2 :: l3 =>
                  let n2 := nat_of_ascii c2 in
                  if (((n =? 225) && (n1 =? 154) && (n2 =? 128))
                      || ((n =? 226) && (n1 =? 128)
                          && ((128 <=? n2) && (n2 <=? 138)
                              || (n2 =? 168) || (n2 =? 169) || (n2 =? 175)))
                      || ((n =? 226) && (n1 =? 129) && (n2 =? 159))
                      || ((n =? 227) && (n1 =? 128) && (n2 =? 128))
                      || ((n =? 239) && (n1 =? 187) && (n2 =? 191)))%nat
                  then trim_start l3
                  else l
              | [] => l
              end
        | [] => l
        end
  | [] => []
  end.

(** The same from the end: the reversed string is scanned, so the multi-byte
    sequences are matched last byte first. *)
Fixpoint trim_end_rev (l : list ascii) : list ascii :=
  match l with
  | c :: l1 =>
      let n := nat_of_ascii c in
      if ((9 <=? n) && (n <=? 13) || (n =? 32))%nat then trim_end_rev l1
      else
        match l1 with
        | c1 :: l2 =>
            let n1 := nat_of_ascii c1 in
            if ((n =? 160) && (n1 =? 194))%nat then trim_end_rev l2
            else
              match l2 with
              | c2 :: l3 =>
                  let n2 := nat_of_ascii c2 in
                  if (((n2 =? 225) && (n1 =? 154) && (n =? 128))
                      || ((n2 =? 226) && (n1 =? 128)
                          && ((128 <=? n) && (n <=? 138)
                              || (n =? 168) || (n =? 169) || (n =? 175)))
                      || ((n2 =? 226) && (n1 =? 129) && (n =? 159))
                      || ((n2 =? 227) && (n1 =? 128) && (n =? 128))
                      || ((n2 =? 239) && (n1 =? 187) && (n =? 191)))%nat
                  then trim_end_rev l3
                  else l
              | [] => l
              end
        | [] => l
        end
  | [] => []
  end.

(** [s.trim()]. *)
Definition trim (s : string) : string :=
  string_of_list_ascii
    (rev (trim_end_rev (rev (trim_start (list_ascii_of_string s))))).

(** *** From strings to numbers *)

(** The longest prefix of decimal digits, and the rest. *)
Fixpoint span_digits (l : list ascii) : list ascii * list ascii :=
  match l with
  | c :: l' =>
      if is_digit c then let '(d, r) := span_digits l' in (c :: d, r)
      else ([], l)
  | [] => ([], [])
  end.

Definition digits_val (d : list ascii) : Z :=
  fold_left (fun acc c => (acc * 10 + digit_val c)%Z) d 0%Z.

(** The value of [l] read in radix [r], when every character is a digit of
    that radix. *)
Fixpoint radix_val (r : Z) (l : list ascii) (acc : Z) : option Z :=
  match l with
  | [] => Some acc
  | c :: l' =>
      match hex_val c with
      | Some v => if (v <? r)%Z then radix_val r l' (acc * r + v)%Z else None
      | None => None
      end
  end.

Definition radix_literal (r : Z) (l : list ascii) : float :=
  match l with
  | [] => nan
  | _ => match radix_val r l 0%Z with
         | Some v => of_decimal false v 0
         | None => nan
         end
  end.

(** An optional exponent part that must reach the end of the literal. *)
Definition exponent_part (l : list ascii) : option Z :=
  match l with
  | [] => Some 0%Z
  | c :: l1 =>
      if (nat_of_ascii c =? 101)%nat || (nat_of_ascii c =? 69)%nat then
        let '(neg, l2) :=
          match l1 with
          | "+"%char :: l2 => (false, l2)
          | "-"%char :: l2 => (true, l2)
          | _ => (false, l1)
          end in
        match span_digits l2 with
        | ((_ :: _) as d, []) => Some (if neg then - digits_val d else digits_val d)%Z
        | _ => None
        end
      else None
  end.

(** An unsigned decimal literal: digits, an optional fraction, an optional
    exponent, with at least one digit before the exponent. *)
Definition decimal_literal (neg : bool) (l : list ascii) : float :=
  let '(d1, r1) := span_digits l in
  let '(d2, r2) :=
    match r1 with
    | "."%char :: r => span_digits r
    | _ => ([], r1)
    end in
  match (d1 ++ d2)%list, exponent_part r2 with
  | _ :: _, Some e =>
      of_decimal neg (digits_val (d1 ++ d2)%list) (e - Z.of_nat (length d2))
  | _, _ => nan
  end.

Definition unsigned_literal (neg : bool) (l : list ascii) : float :=
  if String.eqb (string_of_list_ascii l) "Infinity"
  then (if neg then neg_infinity else infinity)
  else decimal_literal neg l.

(** [Number(s)] for a string: white space is trimmed, the empty string is
    [0], a literal that is not a numeric literal gives [NaN]. *)
Definition StringToNumber (s : string) : float :=
  match list_ascii_of_string (trim s) with
  | [] => PrimFloat.zero
  | "0"%char :: "x"%char :: l | "0"%char :: "X"%char :: l => radix_literal 16 l
  | "0"%char :: "o"%char :: l | "0"%char :: "O"%char :: l => radix_literal 8 l
  | "0"%char :: "b"%char :: l | "0"%char :: "B"%char :: l => radix_literal 2 l
  | "+"%char :: l => unsigned_literal false l
  | "-"%char :: l => unsigned_literal true l
  | l => unsigned_literal false l
  end.

(** The values a field of a parsed JSON body can hold, and [undefined] for a
    field that is absent. An array or a nested object is given by the string
    its [toString] method returns (the elements joined by commas for an
    array, "[object Object]" for an object), which is all the program can
    observe of it. *)
Inductive value : Type :=
  | undefined
  | null
  | Bool (v : bool)
  | Num (n : float)
  | Str (s : string)
  | Other (toString : string).

(** [Number(v)]. *)
Definition Number (v : value) : float :=
  match v with
  | undefined => nan
  | null => PrimFloat.zero
  | Bool true => PrimFloat.one
  | Bool false => PrimFloat.zero
  | Num n => n
  | Str s => StringToNumber s
  | Other s => StringToNumber s
  end.

(** *** From numbers to strings *)

Definition Z_digits (z : Z) : string :=
  NilZero.string_of_uint (N.to_uint (Z.to_N z)).

Fixpoint zeros (n : nat) : string :=
  match n with
  | O => ""
  | S n' => String "0" (zeros n')
  end.

Definition take (n : nat) (s : string) : string := String.substring 0 n s.
Definition drop (n : nat) (s : string) : string :=
  String.substring n (String.length s - n) s.

(** The decimal expansion of [m * 2^e]: [(N, f)] with [m * 2^e = N / 10^f]. *)
Definition exact_decimal (m : positive) (e : Z) : Z * Z :=
  if (0 <=? e)%Z then (Zpos m * 2 ^ e, 0)%Z else (Zpos m * 5 ^ (- e), - e)%Z.

(** The shortest decimal [(s, j)], meaning [s * 10^j], that reads back as the
    positive number [x] whose exact expansion is the [L]-digit integer [N]
    over [10^f]. With [k] digits the candidates are the expansion cut after
    [k] digits and its successor; the nearer one is preferred. *)
Fixpoint shortest (fuel : nat) (x : float) (N L f k : Z) : Z * Z :=
  match fuel with
  | O => (N, - f)%Z
  | S fuel' =>
      let p := (10 ^ (L - k))%Z in
      let lo := (N / p)%Z in
      let rest := (N mod p)%Z in
      let j := (L - k - f)%Z in
      let ok_lo := PrimFloat.Leibniz.eqb (of_decimal false lo j) x in
      let ok_hi := PrimFloat.Leibniz.eqb (of_decimal false (lo + 1) j) x in
      let hi_nearer :=
        match (2 * rest ?= p)%Z with
        | Lt => false
        | Gt => true
        | Eq => Z.odd lo
        end in
      if ok_lo && ok_hi then (if hi_nearer then (lo + 1)%Z else lo, j)
      else if ok_lo then (lo, j)
      else if ok_hi then ((lo + 1)%Z, j)
      else shortest fuel' x N L f (k + 1)%Z
  end.

Fixpoint strip_zeros (fuel : nat) (s j : Z) : Z * Z :=
  match fuel with
  | O => (s, j)
  | S fuel' =>
      if ((s mod 10 =? 0) && negb (s =? 0))%Z
      then strip_zeros fuel' (s / 10)%Z (j + 1)%Z
      else (s, j)
  end.

(** The digits [ds] with the decimal point after the [n]-th of them, laid
    out as [Number::toString] does. *)
Definition layout (ds : string) (n : Z) : string :=
  let k := Z.of_nat (String.length ds) in
  if ((k <=? n) && (n <=? 21))%Z then ds ++ zeros (Z.to_nat (n - k))
  else if ((0 <? n) && (n <=? 21))%Z
  then take (Z.to_nat n) ds ++ "." ++ drop (Z.to_nat n) ds
  else if ((-6 <? n) && (n <=? 0))%Z then "0." ++ zeros (Z.to_nat (- n)) ++ ds
  else
    let e := (n - 1)%Z in
    let es := (if (e <? 0)%Z then "-" else "+") ++ Z_digits (Z.abs e) in
    if (k =? 1)%Z then ds ++ "e" ++ es
    else take 1 ds ++ "." ++ drop 1 ds ++ "e" ++ es.

(** [String(x)], what a template literal inserts for [${x}]. *)
Definition Number_toString (x : float) : string :=
  match Prim2SF x with
  | S754_nan => "NaN"
  | S754_zero _ => "0"
  | S754_infinity s => if s then "-Infinity" else "Infinity"
  | S754_finite s m e =>
      let '(N, f) := exact_decimal m e in
      let L := Z.of_nat (String.length (Z_digits N)) in
      let '(c, j) := shortest (Z.to_nat L) (abs x) N L f 1 in
      let '(c, j) := strip_zeros (Z.to_nat L) c j in
      let ds := Z_digits c in
      (if s then "-" else "") ++ layout ds (Z.of_nat (String.length ds) + j)
  end.

(** [x.toFixed(fd)]: below [10^21] the exact value is rounded to [fd]
    decimals, halves upwards in magnitude, and written with exactly [fd]
    digits after the point; from [10^21] on, and for [NaN] and the infinities,
    the result is [String(x)]. *)
Definition toFixed (x : float) (fd : nat) : string :=
  match Prim2SF x with
  | S754_finite _ _ _ | S754_zero _ =>
      if (of_decimal false 1 21 <=? abs x)%float then Number_toString x
      else
        let n :=
          match Prim2SF x with
          | S754_finite _ m e =>
              if (0 <=? e)%Z then (Zpos m * 2 ^ e * 10 ^ Z.of_nat fd)%Z
              else ((2 * Zpos m * 10 ^ Z.of_nat fd + 2 ^ (- e)) / 2 ^ (1 - e))%Z
          | _ => 0%Z
          end in
        let ds := Z_digits n in
        let ds := zeros (S fd - String.length ds) ++ ds in
        let k := String.length ds in
        (if (x <? 0)%float then "-" else "")
          ++ take (k - fd) ds
          ++ (if (fd =? 0)%nat then "" else "." ++ drop (k - fd) ds)
  | _ => Number_toString x
  end.

End JS.


Import JS.

(** ** Exceptions and the store of objects *)

Inductive exn : Type :=
  | TypeError (what : string).

Inductive outcome (A : Type) : Type :=
  | Ret (a : A)
  | Throw (e : exn).

Arguments Ret {A} a.
Arguments Throw {A} e.

(** An object of the program is a rule table: its own properties, each
    holding a number. The store maps references to objects. *)
Abbreviation object := (gmap string float).
Abbreviation store := (gmap nat (gmap string float)).

(** A computation reads and extends the store and returns or throws. *)
Definition M (A : Type) : Type := store -> outcome A * store.

Definition ret {A} (a : A) : M A := fun h => (Ret a, h).

Definition throw {A} (e : exn) : M A := fun h => (Throw e, h).

Definition bind {A B} (c : M A) (k : A -> M B) : M B :=
  fun h =>
    match c h with
    | (Ret a, h') => k a h'
    | (Throw e, h') => (Throw e, h')
    end.

Notation "x <- c1 ;; c2" := (bind c1 (fun x => c2))
  (at level 100, c1 at next level, right associativity).
Notation "c1 ;;; c2" := (bind c1 (fun _ => c2))
  (at level 100, right associativity).

(** [o.k] read as a number: an absent property is [undefined], which every
    use in this program converts to [NaN]. *)
Definition prop (o : object) (k : string) : float := default nan (o !! k).

(** The object a reference points to. *)
Definition deref (l : nat) : M object := fun h => (Ret (h !!! l), h).

(** [l.k] *)
Definition get (l : nat) (k : string) : M float :=
  fun h => (Ret (prop (h !!! l) k), h).

(** [l.k = v]: the object is changed in place. *)
Definition set (l : nat) (k : string) (v : float) : M unit :=
  fun h => (Ret tt, <[l := <[k := v]> (h !!! l)]> h).

(** A new object at a reference not in use. *)
Definition alloc (o : object) : M nat :=
  fun h => let l := fresh (dom h) in (Ret l, <[l := o]> h).

(** [{ ...a }] and [{ ...a, ...b }]: a new object with the own properties
    of the sources, a later source overriding an earlier one. *)
Definition spread (srcs : list nat) : M nat :=
  fun h => alloc (foldl (fun acc l => (h !!! l) ∪ acc) ∅ srcs) h.

(** ** The rule catalog (module-level constants) *)

Definition BASE_RULES : nat := 0.
Definition RAST_RULES : nat := 1.
Definition ERA_RULES : nat := 2.
Definition EFA_RULES : nat := 3.
Definition STVO_RULES : nat := 4.

Definition BASE_RULES_literal : object :=
  {[ "sidewalk_min_m" := 1.5%float;
     "sidewalk_target_m" := 1.8%float;
     "lane_min_m" := 2.75%float;
     "lane_regular_m" := 3.25%float;
     "cycle_min_m" := 1.5%float;
     "parking_parallel_min_m" := 2.0%float;
     "parking_schraeg_min_m" := 2.5%float;
     "parking_quer_min_m" := 5.0%float ]}.

Definition RAST_RULES_literal : object :=
  {[ "sidewalk_min_m" := 1.8%float;
     "lane_min_m" := 2.75%float;
     "lane_regular_m" := 3.25%float;
     "parking_parallel_min_m" := 2.0%float;
     "parking_schraeg_min_m" := 2.5%float;
     "parking_quer_min_m" := 5.0%float ]}.

Definition ERA_RULES_literal : object :=
  {[ "cycle_schutz_min_m" := 1.5%float;
     "cycle_radfahr_min_m" := 1.85%float;
     "cycle_baulich_min_m" := 2.0%float ]}.

Definition EFA_RULES_literal : object :=
  {[ "sidewalk_min_m" := 1.8%float;
     "sidewalk_target_m" := 2.5%float ]}.

Definition STVO_RULES_literal : object :=
  {[ "lane_min_m" := 2.75%float;
     "lane_regular_m" := 3.25%float ]}.

(** The store once the module is loaded. *)
Definition module_store : store :=
  {[ BASE_RULES := BASE_RULES_literal;
     RAST_RULES := RAST_RULES_literal;
     ERA_RULES := ERA_RULES_literal;
     EFA_RULES := EFA_RULES_literal;
     STVO_RULES := STVO_RULES_literal ]}.

(** The catalog constants hold the objects they were initialised with; the
    rest of the store is arbitrary. *)
Definition catalog_ok (h : store) : Prop :=
  h !! BASE_RULES = Some BASE_RULES_literal /\
  h !! RAST_RULES = Some RAST_RULES_literal /\
  h !! ERA_RULES = Some ERA_RULES_literal /\
  h !! EFA_RULES = Some EFA_RULES_literal /\
  h !! STVO_RULES = Some STVO_RULES_literal.

(** ** Helpers *)

Definition toNumber (value : JS.value) (fallback : float) : float :=
  let n := Number value in
  if isFinite n then n else fallback.

(** [toNumber(value)]: the fallback defaults to [0]. *)
Definition toNumber1 (value : JS.value) : float := toNumber value PrimFloat.zero.

Definition toBool (value : JS.value) : bool :=
  match value with
  | Bool true => true
  | Str s =>
      let v := toLowerCase (trim s) in
      (v =? "ja") || (v =? "yes") || (v =? "true") || (v =? "on") || (v =? "1")
  | _ => false
  end.

Record Error : Type := { field : string; message : string }.

(** [errors.push({ field, message })], the array passed along. *)
Definition addError (errors : list Error) (field message : string) : list Error :=
  errors ++ [{| field := field; message := message |}].

(** ** Merging the rules *)

Record Standards : Type :=
  { applyRast : bool; applyEra : bool; applyEfa : bool; applyStvo : bool }.

Definition buildRules (standards : Standards) : M nat :=
  rules <- spread [BASE_RULES] ;;
  rules <- (if applyRast standards then spread [rules; RAST_RULES] else ret rules) ;;
  rules <- (if applyEfa standards then spread [rules; EFA_RULES] else ret rules) ;;
  (if applyStvo standards then
     a <- get rules "lane_min_m" ;;
     b <- get STVO_RULES "lane_min_m" ;;
     set rules "lane_min_m" (Math_max a b) ;;;
     a <- get rules "lane_regular_m" ;;
     b <- get STVO_RULES "lane_regular_m" ;;
     set rules "lane_regular_m" (Math_max a b)
   else ret tt) ;;;
  (if applyEra standards then
     v <- get ERA_RULES "cycle_schutz_min_m" ;;
     set rules "cycle_schutz_min_m" v ;;;
     v <- get ERA_RULES "cycle_radfahr_min_m" ;;
     set rules "cycle_radfahr_min_m" v ;;;
     v <- get ERA_RULES "cycle_baulich_min_m" ;;
     set rules "cycle_baulich_min_m" v
   else
     set rules "cycle_schutz_min_m" 1.5%float ;;;
     set rules "cycle_radfahr_min_m" 1.85%float ;;;
     set rules "cycle_baulich_min_m" 2.0%float) ;;;
  ret rules.


(** ** Validation *)

(** The request body: the fields the validator reads. *)
Record Data : Type :=
  { gesamtbreite : JS.value;
    gehwegLinks : JS.value;
    gehwegRechts : JS.value;
    fahrstreifen : JS.value;
    busverkehr : JS.value;
    radverkehrGewuenscht : JS.value;
    radverkehrArt : JS.value;
    radverkehrFuehrung : JS.value;
    parkstaendeGewuenscht : JS.value;
    parkart : JS.value }.

(** The constants of the form mapping. *)
Record Geometry : Type :=
  { totalWidthM : float;
    sidewalkLeftM : float;
    sidewalkRightM : float;
    lanesCount : float;
    busTraffic : bool;
    cycleNeeded : bool;
    cycleType : string;
    cycleSides : string;
    parkingNeeded : bool;
    parkingType : string }.

(** [(v ?? "").toLowerCase()]: the empty string stands in for [null] and
    [undefined]; a number, a boolean, an array or an object has no
    [toLowerCase] method and the call throws. *)
Definition lowerOrEmpty (v : JS.value) : outcome string :=
  match v with
  | undefined | null => Ret (toLowerCase "")
  | Str s => Ret (toLowerCase s)
  | Bool _ | Num _ | Other _ => Throw (TypeError "toLowerCase is not a function")
  end.

Notation "'try' x ':=' c 'in' k" :=
  (match c with Ret x => k | Throw e => Throw e end)
  (at level 10, x name, c at level 100, k at level 200).

(** Formularmapping: the store is not involved. *)
Definition formMapping (data : Data) : outcome Geometry :=
  let totalWidthM := toNumber1 (gesamtbreite data) in
  let sidewalkLeftM := toNumber1 (gehwegLinks data) in
  let sidewalkRightM := toNumber1 (gehwegRechts data) in
  let lanesCount := toNumber1 (fahrstreifen data) in
  let busTraffic := toBool (busverkehr data) in
  let cycleNeeded := toBool (radverkehrGewuenscht data) in
  try cycleType := lowerOrEmpty (radverkehrArt data) in
  try cycleSides := lowerOrEmpty (radverkehrFuehrung data) in
  let parkingNeeded := toBool (parkstaendeGewuenscht data) in
  try parkingType := lowerOrEmpty (parkart data) in
  Ret {| totalWidthM := totalWidthM;
         sidewalkLeftM := sidewalkLeftM;
         sidewalkRightM := sidewalkRightM;
         lanesCount := lanesCount;
         busTraffic := busTraffic;
         cycleNeeded := cycleNeeded;
         cycleType := cycleType;
         cycleSides := cycleSides;
         parkingNeeded := parkingNeeded;
         parkingType := parkingType |}.

(** An outcome as a computation that leaves the store alone. *)
Definition lift {A} (o : outcome A) : M A := fun h => (o, h).

(** The summary of a completed validation. *)
Record SidewalksSummary : Type :=
  { sum_sidewalkLeftM : float; sum_sidewalkRightM : float }.
Record CycleSummary : Type :=
  { sum_cycleNeeded : bool; sum_cycleType : string; sum_cycleSides : string;
    sum_cycleTotalM : float }.
Record ParkingSummary : Type :=
  { sum_parkingNeeded : bool; sum_parkingType : string; sum_parkingM : float }.
Record LanesSummary : Type :=
  { sum_lanesCount : float; sum_approxLaneWidth : float }.
Record Summary : Type :=
  { sidewalks : SidewalksSummary;
    cycle : CycleSummary;
    parking : ParkingSummary;
    lanes : LanesSummary;
    sum_requiredMin : float;
    sum_totalWidthM : float }.

(** What the validator returns. [summary] is [None] for the empty object
    [{}]; [rules] and [standardsApplied] are [None] when the returned object
    has no such property. *)
Record Result : Type :=
  { ok : bool;
    errors : list Error;
    summary : option Summary;
    rules : option nat;
    standardsApplied : option Standards }.

Section Validation.

Variable g : Geometry.
(** The object [RULES] refers to. *)
Variable RULES : object.

(** Pflichtfelder *)
Definition mandatoryErrors : list Error :=
  let errors := [] in
  let errors :=
    if negb (truthy (totalWidthM g))
    then addError errors "gesamtbreite"
           "Bitte geben Sie die Gesamtbreite des Straßenraums an."
    else errors in
  let errors :=
    if negb (truthy (lanesCount g))
    then addError errors "fahrstreifen"
           "Bitte geben Sie die Anzahl der Fahrstreifen an."
    else errors in
  let errors :=
    if negb (truthy (sidewalkLeftM g))
    then addError errors "gehwegLinks"
           "Bitte geben Sie die Breite des linken Gehwegs an."
    else errors in
  let errors :=
    if negb (truthy (sidewalkRightM g))
    then addError errors "gehwegRechts"
           "Bitte geben Sie die Breite des rechten Gehwegs an."
    else errors in
  errors.

(** Gehwege *)
Definition sidewalkErrors (errors : list Error) : list Error :=
  let errors :=
    if (sidewalkLeftM g <? prop RULES "sidewalk_min_m")%float
    then addError errors "gehwegLinks"
           ("Linker Gehweg ist mit " ++ Number_toString (sidewalkLeftM g)
            ++ " m schmaler als die Mindestbreite von "
            ++ Number_toString (prop RULES "sidewalk_min_m") ++ " m.")
    else errors in
  let errors :=
    if (sidewalkRightM g <? prop RULES "sidewalk_min_m")%float
    then addError errors "gehwegRechts"
           ("Rechter Gehweg ist mit " ++ Number_toString (sidewalkRightM g)
            ++ " m schmaler als die Mindestbreite von "
            ++ Number_toString (prop RULES "sidewalk_min_m") ++ " m.")
    else errors in
  errors.

Definition sidewalkTotalM : float := (sidewalkLeftM g + sidewalkRightM g)%float.

(** Radverkehr *)
Definition cycleWidthPerSide : float :=
  if cycleNeeded g then
    if (cycleType g =? "schutzstreifen")%string then prop RULES "cycle_schutz_min_m"
    else if (cycleType g =? "radfahrstreifen")%string then prop RULES "cycle_radfahr_min_m"
    else prop RULES "cycle_baulich_min_m"
  else 0%float.

Definition cycleSidesCount : float :=
  if cycleNeeded g
  then (if (cycleSides g =? "beidseitig")%string then 2%float else 1%float)
  else 0%float.

Definition cycleTotalM : float := (cycleWidthPerSide * cycleSidesCount)%float.

(** Parken *)
Definition parkingM : float :=
  if parkingNeeded g then
    if (parkingType g =? "parallel")%string then prop RULES "parking_parallel_min_m"
    else if (parkingType g =? "schraeg")%string then prop RULES "parking_schraeg_min_m"
    else if (parkingType g =? "quer")%string then prop RULES "parking_quer_min_m"
    else 0%float
  else 0%float.

(** Mindestbreite berechnen *)
Definition lanesMin : float := (lanesCount g * prop RULES "lane_min_m")%float.

Definition requiredMin : float :=
  (sidewalkTotalM + cycleTotalM + parkingM + lanesMin)%float.

Definition requiredErrors (errors : list Error) : list Error :=
  if (totalWidthM g <? requiredMin)%float
  then addError errors "gesamtbreite"
         ("Die gewünschte Aufteilung benötigt mindestens "
          ++ toFixed requiredMin 2 ++ " m, verfügbar sind aber nur "
          ++ toFixed (totalWidthM g) 2 ++ " m.")
  else errors.

(** Fahrstreifenprüfung *)
Definition widthForLanes : float :=
  (totalWidthM g - (sidewalkTotalM + cycleTotalM + parkingM))%float.

Definition approxLaneWidth : float := (widthForLanes / lanesCount g)%float.

Definition laneErrors (errors : list Error) : list Error :=
  let errors :=
    if (approxLaneWidth <? prop RULES "lane_min_m")%float
    then addError errors "fahrstreifen"
           ("Die voraussichtliche Fahrstreifenbreite liegt mit ca. "
            ++ toFixed approxLaneWidth 2 ++ " m unter der Mindestbreite von "
            ++ Number_toString (prop RULES "lane_min_m") ++ " m.")
    else errors in
  let errors :=
    if busTraffic g && (approxLaneWidth <? prop RULES "lane_regular_m")%float
    then addError errors "fahrstreifen"
           ("Für Busverkehr wird in der Regel eine Fahrstreifenbreite von mindestens "
            ++ Number_toString (prop RULES "lane_regular_m") ++ " m empfohlen.")
    else errors in
  errors.

Definition validationSummary : Summary :=
  {| sidewalks :=
       {| sum_sidewalkLeftM := sidewalkLeftM g;
          sum_sidewalkRightM := sidewalkRightM g |};
     cycle :=
       {| sum_cycleNeeded := cycleNeeded g;
          sum_cycleType := cycleType g;
          sum_cycleSides := cycleSides g;
          sum_cycleTotalM := cycleTotalM |};
     parking :=
       {| sum_parkingNeeded := parkingNeeded g;
          sum_parkingType := parkingType g;
          sum_parkingM := parkingM |};
     lanes :=
       {| sum_lanesCount := lanesCount g;
          sum_approxLaneWidth := approxLaneWidth |};
     sum_requiredMin := requiredMin;
     sum_totalWidthM := totalWidthM g |}.

(** The function body after the form mapping; [rulesRef] is the reference
    [RULES] and [standards] the argument, both only passed on. *)
Definition validateGeometry (rulesRef : nat) (standards : Standards) : Result :=
  let errors := mandatoryErrors in
  if (0 <? length errors)%nat then
    {| ok := false; errors := errors; summary := None;
       rules := None; standardsApplied := None |}
  else
    let errors := sidewalkErrors errors in
    let errors := requiredErrors errors in
    let errors := laneErrors errors in
    {| ok := (length errors =? 0)%nat;
       errors := errors;
       summary := Some validationSummary;
       rules := Some rulesRef;
       standardsApplied := Some standards |}.

End Validation.

(** [RULES] is written by [buildRules] only, so the object it refers to is
    read once, when the form mapping is done. *)
Definition validateDesignWithStandards (data : Data) (standards : Standards)
  : M Result :=
  RULES <- buildRules standards ;;
  g <- lift (formMapping data) ;;
  table <- deref RULES ;;
  ret (validateGeometry g table RULES standards).


(** ** The route POST /api/verkehrsplanung *)

(** [req.body]: the form fields the validator reads and the four flags that
    select the standards. *)
Record Body : Type :=
  { form : Data;
    rast : JS.value;
    era : JS.value;
    efa : JS.value;
    stvo : JS.value }.

(** What [console.log] receives: a text, or the JSON text of the body
    ([JSON.stringify(data, null, 2)]), kept as the value it renders. *)
Inductive LogEntry : Type :=
  | LogText (text : string)
  | LogJson (body : Body).

(** The response: the HTTP status and the JSON object sent. [responseErrors]
    is [None] when the object has no [errors] property; [responseSummary] is
    the summary of the result, [None] for the empty object. *)
Record Response : Type :=
  { httpStatus : nat;
    status : string;
    responseMessage : string;
    responseErrors : option (list Error);
    responseSummary : option Summary }.

(** The handler: what it logs, and the computation of the response. A throw
    of the validator is not caught here. *)
Definition postVerkehrsplanung (body : Body) : list LogEntry * M Response :=
  let data := body in
  ([LogText "Neue Verkehrsplanungs-Anfrage empfangen:"; LogJson data],
   let standards :=
     {| applyRast := toBool (rast data);
        applyEra := toBool (era data);
        applyEfa := toBool (efa data);
        applyStvo := toBool (stvo data) |} in
   result <- validateDesignWithStandards (form data) standards ;;
   if negb (ok result) then
     ret {| httpStatus := 400;
            status := "error";
            responseMessage :=
              "Die Anfrage erfüllt nicht die Anforderungen der gewählten Richtlinien.";
            responseErrors := Some (errors result);
            responseSummary := summary result |}
   else
     ret {| httpStatus := 200;
            status := "ok";
            responseMessage := "Alle ausgewählten Richtlinien erfüllt.";
            responseErrors := None;
            responseSummary := summary result |}).

(** ** The validator with plain messages (third program of index.js)

    The helpers, the catalog, [buildRules] and the form mapping are the same
    text as in the first program and are shared. *)

Module Plain.

Record Result : Type :=
  { ok : bool;
    errors : list string;
    summary : option Summary;
    rules : option nat;
    standardsApplied : option Standards }.

(** [errors.push(message)] *)
Definition push (errors : list string) (message : string) : list string :=
  (errors ++ [message])%list.

Section Validation.

Variable g : Geometry.
Variable RULES : object.

(** Pflichtfelder *)
Definition mandatoryErrors : list string :=
  let errors := [] in
  let errors :=
    if negb (truthy (totalWidthM g))
    then push errors "Gesamtbreite fehlt oder ist ungültig."
    else errors in
  let errors :=
    if negb (truthy (lanesCount g))
    then push errors "Anzahl der Fahrstreifen nicht angegeben."
    else errors in
  errors.

(** Gehwege *)
Definition sidewalkErrors (errors : list string) : list string :=
  let errors :=
    if (sidewalkLeftM g <? prop RULES "sidewalk_min_m")%float
    then push errors
          ("Linker Gehweg zu schmal (" ++ Number_toString (sidewalkLeftM g)
           ++ " m < " ++ Number_toString (prop RULES "sidewalk_min_m") ++ " m).")
    else errors in
  let errors :=
    if (sidewalkRightM g <? prop RULES "sidewalk_min_m")%float
    then push errors
          ("Rechter Gehweg zu schmal (" ++ Number_toString (sidewalkRightM g)
           ++ " m < " ++ Number_toString (prop RULES "sidewalk_min_m") ++ " m).")
    else errors in
  errors.

(** Radverkehr *)
Definition cycleSidesCount : float :=
  if (cycleSides g =? "beidseitig")%string then 2%float else 1%float.

Definition cycleTotalM : float :=
  (cycleWidthPerSide g RULES
   * (if cycleNeeded g then cycleSidesCount else 0))%float.

(** Mindestbreite berechnen *)
Definition requiredMin : float :=
  (sidewalkTotalM g + cycleTotalM + parkingM g RULES + lanesMin g RULES)%float.

Definition requiredErrors (errors : list string) : list string :=
  if (totalWidthM g <? requiredMin)%float
  then push errors
          ("Benötigte Breite " ++ toFixed requiredMin 2
         ++ " m > verfügbare Breite " ++ toFixed (totalWidthM g) 2 ++ " m.")
  else errors.

(** Fahrstreifenprüfung *)
Definition widthForLanes : float :=
  (totalWidthM g - (sidewalkTotalM g + cycleTotalM + parkingM g RULES))%float.

Definition approxLaneWidth : float := (widthForLanes / lanesCount g)%float.

Definition laneErrors (errors : list string) : list string :=
  let errors :=
    if (approxLaneWidth <? prop RULES "lane_min_m")%float
    then push errors
          ("Fahrstreifen zu schmal: ca. " ++ toFixed approxLaneWidth 2
           ++ " m < Mindestbreite " ++ Number_toString (prop RULES "lane_min_m")
           ++ " m.")
    else errors in
  let errors :=
    if busTraffic g && (approxLaneWidth <? prop RULES "lane_regular_m")%float
    then push errors
          ("Für Busverkehr empfohlen: mind. "
           ++ Number_toString (prop RULES "lane_regular_m")
           ++ " m Fahrstreifenbreite.")
    else errors in
  errors.

(** Ergebnis *)
Definition validationSummary : Summary :=
  {| sidewalks :=
       {| sum_sidewalkLeftM := sidewalkLeftM g;
          sum_sidewalkRightM := sidewalkRightM g |};
     cycle :=
       {| sum_cycleNeeded := cycleNeeded g;
          sum_cycleType := cycleType g;
          sum_cycleSides := cycleSides g;
          sum_cycleTotalM := cycleTotalM |};
     parking :=
       {| sum_parkingNeeded := parkingNeeded g;
          sum_parkingType := parkingType g;
          sum_parkingM := parkingM g RULES |};
     lanes :=
       {| sum_lanesCount := lanesCount g;
          sum_approxLaneWidth := approxLaneWidth |};
     sum_requiredMin := requiredMin;
     sum_totalWidthM := totalWidthM g |}.

Definition validateGeometry (rulesRef : nat) (standards : Standards) : Result :=
  let errors := mandatoryErrors in
  if (0 <? length errors)%nat then
    {| ok := false; errors := errors; summary := None;
       rules := None; standardsApplied := None |}
  else
    let errors := sidewalkErrors errors in
    let errors := requiredErrors errors in
    let errors := laneErrors errors in
    {| ok := (length errors =? 0)%nat;
       errors := errors;
       summary := Some validationSummary;
       rules := Some rulesRef;
       standardsApplied := Some standards |}.

End Validation.

Definition validateDesignWithStandards (data : Data) (standards : Standards)
  : M Result :=
  RULES <- buildRules standards ;;
  g <- lift (formMapping data) ;;
  table <- deref RULES ;;
  ret (validateGeometry g table RULES standards).

End Plain.

(** ** The earlier validator (src/unnamed/part_000)

    Its helpers and its catalog are the same text as in index.js and are
    shared; [buildRules], the validator and the route differ. *)

Module Legacy.

(** [a ?? b] *)
Definition nullish (a b : JS.value) : JS.value :=
  match a with
  | undefined | null => b
  | _ => a
  end.

(** [x || y] on numbers. *)
Definition orElse (x y : float) : float := if truthy x then x else y.

(** [{ ...rules, lane_min_m: a, lane_regular_m: b }] with the two values
    computed from [rules] and [STVO_RULES]. *)
Definition buildRules (standards : Standards) : M nat :=
  rules <- spread [BASE_RULES] ;;
  rules <- (if applyRast standards then spread [rules; RAST_RULES] else ret rules) ;;
  rules <- (if applyEfa standards then spread [rules; EFA_RULES] else ret rules) ;;
  rules <- (if applyStvo standards then
              copy <- spread [rules] ;;
              a <- get rules "lane_min_m" ;;
              b <- get STVO_RULES "lane_min_m" ;;
              set copy "lane_min_m" (Math_max a b) ;;;
              a <- get rules "lane_regular_m" ;;
              b <- get STVO_RULES "lane_regular_m" ;;
              set copy "lane_regular_m" (Math_max a b) ;;;
              ret copy
            else ret rules) ;;
  (if applyEra standards then
     v <- get ERA_RULES "cycle_schutz_min_m" ;;
     set rules "cycle_schutz_min_m" v ;;;
     v <- get ERA_RULES "cycle_radfahr_min_m" ;;
     set rules "cycle_radfahr_min_m" v ;;;
     v <- get ERA_RULES "cycle_baulich_min_m" ;;
     set rules "cycle_baulich_min_m" v
   else
     v <- get rules "cycle_min_m" ;;
     set rules "cycle_schutz_min_m" v ;;;
     v <- get rules "cycle_min_m" ;;
     set rules "cycle_radfahr_min_m" (Math_max v 1.8%float) ;;;
     v <- get rules "cycle_min_m" ;;
     set rules "cycle_baulich_min_m" (Math_max v 2.0%float)) ;;;
  ret rules.

(** The request body: every form field under its two names. *)
Record Data : Type :=
  { in_totalWidthM : JS.value; total_width_m : JS.value;
    in_sidewalkLeftM : JS.value; sidewalk_left_m : JS.value;
    in_sidewalkRightM : JS.value; sidewalk_right_m : JS.value;
    in_lanesCount : JS.value; lanes_count : JS.value;
    bus : JS.value; in_busTraffic : JS.value;
    in_cycleNeeded : JS.value; cycle_needed : JS.value;
    in_cycleType : JS.value; cycle_type : JS.value;
    in_cycleSides : JS.value; cycle_sides : JS.value;
    in_parkingNeeded : JS.value; parking_needed : JS.value;
    in_parkingType : JS.value; parking_type : JS.value }.

(** 1. Eingabewerte auslesen *)
Definition readInput (data : Data) : outcome Geometry :=
  let totalWidthM := toNumber1 (nullish (in_totalWidthM data) (total_width_m data)) in
  let sidewalkLeftM :=
    toNumber1 (nullish (in_sidewalkLeftM data) (sidewalk_left_m data)) in
  let sidewalkRightM :=
    toNumber1 (nullish (in_sidewalkRightM data) (sidewalk_right_m data)) in
  let lanesCount := toNumber1 (nullish (in_lanesCount data) (lanes_count data)) in
  let busTraffic := toBool (nullish (bus data) (in_busTraffic data)) in
  let cycleNeeded := toBool (nullish (in_cycleNeeded data) (cycle_needed data)) in
  try cycleType := lowerOrEmpty (nullish (in_cycleType data) (cycle_type data)) in
  try cycleSides := lowerOrEmpty (nullish (in_cycleSides data) (cycle_sides data)) in
  let parkingNeeded :=
    toBool (nullish (in_parkingNeeded data) (parking_needed data)) in
  try parkingType :=
    lowerOrEmpty (nullish (in_parkingType data) (parking_type data)) in
  Ret {| totalWidthM := totalWidthM;
         sidewalkLeftM := sidewalkLeftM;
         sidewalkRightM := sidewalkRightM;
         lanesCount := lanesCount;
         busTraffic := busTraffic;
         cycleNeeded := cycleNeeded;
         cycleType := cycleType;
         cycleSides := cycleSides;
         parkingNeeded := parkingNeeded;
         parkingType := parkingType |}.

Record Computed : Type :=
  { c_sidewalkTotalM : float;
    c_cycleTotalMinWidthM : float;
    c_parkingMinWidthM : float;
    c_lanesMinWidthM : float;
    c_requiredMinWidthM : float;
    c_perLaneWidthApprox : float }.

(** The summary: the four numbers read, when a mandatory field is missing;
    otherwise the input, the computed widths, the rules and the selection. *)
Inductive Summary : Type :=
  | Early (totalWidthM sidewalkLeftM sidewalkRightM lanesCount : float)
  | Full (input : Geometry) (computed : Computed) (rules : nat)
      (standardsApplied : Standards).

Record Result : Type :=
  { ok : bool; errors : list string; summary : Summary }.

(** [errors.push(message)] *)
Definition push (errors : list string) (message : string) : list string :=
  (errors ++ [message])%list.

Section Validation.

Variable g : Geometry.
Variable RULES : object.

(** 2. Pflichtfelder prüfen *)
Definition mandatoryErrors : list string :=
  let errors := [] in
  let errors :=
    if negb (truthy (totalWidthM g))
    then push errors "Gesamtbreite des Straßenraums fehlt oder ist 0."
    else errors in
  let errors :=
    if negb (truthy (lanesCount g))
    then push errors "Bitte geben Sie die Anzahl der Fahrstreifen an."
    else errors in
  errors.

(** 3. Gehwege prüfen *)
Definition sidewalkErrors (errors : list string) : list string :=
  let errors :=
    if truthy (sidewalkLeftM g)
       && (sidewalkLeftM g <? prop RULES "sidewalk_min_m")%float
    then push errors
           ("Linker Gehweg ist mit " ++ toFixed (sidewalkLeftM g) 2
            ++ " m schmaler als die Mindestbreite von "
            ++ toFixed (prop RULES "sidewalk_min_m") 2 ++ " m.")
    else errors in
  let errors :=
    if truthy (sidewalkRightM g)
       && (sidewalkRightM g <? prop RULES "sidewalk_min_m")%float
    then push errors
           ("Rechter Gehweg ist mit " ++ toFixed (sidewalkRightM g) 2
            ++ " m schmaler als die Mindestbreite von "
            ++ toFixed (prop RULES "sidewalk_min_m") 2 ++ " m.")
    else errors in
  errors.

Definition effectiveSidewalkLeftM : float :=
  orElse (sidewalkLeftM g) (prop RULES "sidewalk_min_m").
Definition effectiveSidewalkRightM : float :=
  orElse (sidewalkRightM g) (prop RULES "sidewalk_min_m").
Definition sidewalkTotalM : float :=
  (effectiveSidewalkLeftM + effectiveSidewalkRightM)%float.

(** 4. Radverkehr Breitenbedarf *)
Definition cycleWidthPerSideM : float :=
  if cycleNeeded g then
    if (cycleType g =? "schutzstreifen")%string then prop RULES "cycle_schutz_min_m"
    else if (cycleType g =? "radfahrstreifen")%string then prop RULES "cycle_radfahr_min_m"
    else prop RULES "cycle_baulich_min_m"
  else 0%float.

Definition cycleSidesCount : float :=
  if cycleNeeded g
  then (if (cycleSides g =? "beidseitig")%string then 2%float else 1%float)
  else 0%float.

Definition cycleTotalMinWidthM : float := (cycleWidthPerSideM * cycleSidesCount)%float.

(** 5. Parken Breitenbedarf *)
Definition parkingMinWidthM : float :=
  if parkingNeeded g then
    if (parkingType g =? "parallel")%string then prop RULES "parking_parallel_min_m"
    else if (parkingType g =? "schraeg")%string then prop RULES "parking_schraeg_min_m"
    else if (parkingType g =? "quer")%string then prop RULES "parking_quer_min_m"
    else prop RULES "parking_parallel_min_m"
  else 0%float.

(** 6. Fahrstreifenbreite / Gesamtbreite *)
Definition lanesMinWidthM : float := (lanesCount g * prop RULES "lane_min_m")%float.
Definition lanesRegularWidthM : float :=
  (lanesCount g * prop RULES "lane_regular_m")%float.

Definition requiredMinWidthM : float :=
  (sidewalkTotalM + cycleTotalMinWidthM + parkingMinWidthM + lanesMinWidthM)%float.

Definition requiredErrors (errors : list string) : list string :=
  if (totalWidthM g <? requiredMinWidthM)%float
  then push errors
         ("Die gewünschte Anordnung überschreitet die verfügbare Straßenbreite. Verfügbar: "
          ++ toFixed (totalWidthM g) 2
          ++ " m, Mindestbedarf nach gewählten Richtlinien: "
          ++ toFixed requiredMinWidthM 2 ++ " m.")
  else errors.

Definition availableForLanesBikeParking : float :=
  (totalWidthM g - sidewalkTotalM)%float.

Definition perLaneWidthApprox : float :=
  ((availableForLanesBikeParking - cycleTotalMinWidthM - parkingMinWidthM)
   / orElse (lanesCount g) 1)%float.

Definition laneErrors (errors : list string) : list string :=
  let errors :=
    if truthy perLaneWidthApprox
       && (perLaneWidthApprox <? prop RULES "lane_min_m")%float
    then push errors
           ("Die voraussichtliche Fahrstreifenbreite liegt mit ca. "
            ++ toFixed perLaneWidthApprox 2 ++ " m unter der Mindestbreite von "
            ++ toFixed (prop RULES "lane_min_m") 2 ++ " m.")
    else if truthy perLaneWidthApprox
            && (perLaneWidthApprox <? lanesRegularWidthM)%float
    then push errors
           ("Hinweis: Die voraussichtliche Fahrstreifenbreite liegt mit ca. "
            ++ toFixed perLaneWidthApprox 2 ++ " m unter der Regelbreite von "
            ++ toFixed lanesRegularWidthM 2
            ++ " m, erfüllt aber ggf. noch Mindestanforderungen.")
    else errors in
  let errors :=
    if busTraffic g && truthy perLaneWidthApprox
       && (perLaneWidthApprox <? prop RULES "lane_regular_m")%float
    then push errors
           ("Hinweis: Für Linienbusverkehr wird in der Regel eine Fahrstreifenbreite von mindestens "
            ++ toFixed (prop RULES "lane_regular_m") 2
            ++ " m empfohlen. Die voraussichtliche Breite liegt darunter.")
    else errors in
  errors.

Definition computed : Computed :=
  {| c_sidewalkTotalM := sidewalkTotalM;
     c_cycleTotalMinWidthM := cycleTotalMinWidthM;
     c_parkingMinWidthM := parkingMinWidthM;
     c_lanesMinWidthM := lanesMinWidthM;
     c_requiredMinWidthM := requiredMinWidthM;
     c_perLaneWidthApprox := perLaneWidthApprox |}.

Definition validateGeometry (rulesRef : nat) (standards : Standards) : Result :=
  let errors := mandatoryErrors in
  if (0 <? length errors)%nat then
    {| ok := false; errors := errors;
       summary := Early (totalWidthM g) (sidewalkLeftM g) (sidewalkRightM g)
                    (lanesCount g) |}
  else
    let errors := sidewalkErrors errors in
    let errors := requiredErrors errors in
    let errors := laneErrors errors in
    {| ok := (length errors =? 0)%nat;
       errors := errors;
       summary := Full g computed rulesRef standards |}.

End Validation.

Definition validateDesignWithStandards (data : Data) (standards : Standards)
  : M Result :=
  RULES <- buildRules standards ;;
  g <- lift (readInput data) ;;
  table <- deref RULES ;;
  ret (validateGeometry g table RULES standards).

(** [req.body]: the form fields and every spelling of the four flags. *)
Record Body : Type :=
  { form : Data;
    RASt : JS.value; rast : JS.value; in_applyRast : JS.value;
    ERA : JS.value; era : JS.value; in_applyEra : JS.value;
    EFA : JS.value; efa : JS.value; in_applyEfa : JS.value;
    StVO : JS.value; stvo : JS.value; in_applyStvo : JS.value }.

Inductive LogEntry : Type :=
  | LogText (text : string)
  | LogJson (body : Body).

(** The response: the HTTP status and the properties of the JSON object
    sent, [None] for a property the object does not have. *)
Record Response : Type :=
  { httpStatus : nat;
    status : string;
    responseMessage : string;
    responseStandards : Standards;
    responseErrors : option (list string);
    responseSummary : option Summary }.

Definition postVerkehrsplanung (body : Body) : list LogEntry * M Response :=
  let data := body in
  ([LogText "Neue Verkehrsplanungs-Anfrage empfangen:"; LogJson data],
   let standards :=
     {| applyRast :=
          toBool (RASt data) || toBool (rast data) || toBool (in_applyRast data);
        applyEra :=
          toBool (ERA data) || toBool (era data) || toBool (in_applyEra data);
        applyEfa :=
          toBool (EFA data) || toBool (efa data) || toBool (in_applyEfa data);
        applyStvo :=
          toBool (StVO data) || toBool (stvo data) || toBool (in_applyStvo data) |} in
   if negb (applyRast standards) && negb (applyEra standards)
      && negb (applyEfa standards) && negb (applyStvo standards)
   then
     ret {| httpStatus := 200;
            status := "ok";
            responseMessage := "Anfrage empfangen (ohne aktivierte Richtlinien).";
            responseStandards := standards;
            responseErrors := None;
            responseSummary := None |}
   else
     result <- validateDesignWithStandards (form data) standards ;;
     if negb (ok result) then
       ret {| httpStatus := 400;
              status := "error";
              responseMessage :=
                "Die Anfrage erfüllt nicht alle Anforderungen der gewählten Richtlinien (vereinfachte Prüfung).";
              responseStandards := standards;
              responseErrors := Some (errors result);
              responseSummary := Some (summary result) |}
     else
       ret {| httpStatus := 200;
              status := "ok";
              responseMessage :=
                "Anfrage entspricht den vereinfachten Mindestanforderungen der gewählten Richtlinien.";
              responseStandards := standards;
              responseErrors := None;
              responseSummary := Some (summary result) |}).

End Legacy.

(** ** Notions used in the statements *)

(** Equality of numbers as values (all [NaN]s are one value, [0] and [-0]
    are two) is decidable. *)
Definition float_eq_dec (x y : float) : {x = y} + {x <> y}.
Proof.
  destruct (PrimFloat.Leibniz.eqb x y) eqn:E.
  - left. apply FloatAxioms.Leibniz.eqb_spec, E.
  - right. intros H. apply FloatAxioms.Leibniz.eqb_spec in H. congruence.
Defined.

#[global] Instance float_eq_decision : EqDecision float := float_eq_dec.


(** From the store [h], [c] returns a result and a store that satisfy [Q]. *)
Definition returns {A} (c : M A) (h : store) (Q : A -> store -> Prop) : Prop :=
  exists a h', c h = (Ret a, h') /\ Q a h'.

(** The store [h] extends [h0], and [l] is one of the objects added, with
    properties [t]. *)
Definition owns (h0 h : store) (l : nat) (t : object) : Prop :=
  h0 ⊆ h /\ h0 !! l = None /\ h !! l = Some t.

(** The rule table [buildRules] makes when the module has just been loaded. *)
Definition effectiveRules (standards : Standards) : object :=
  match buildRules standards module_store with
  | (Ret l, h) => h !!! l
  | (Throw _, _) => ∅
  end.

(** The selection with the StVO flag set as given. *)
Definition withStvo (b : bool) (standards : Standards) : Standards :=
  {| applyRast := applyRast standards; applyEra := applyEra standards;
     applyEfa := applyEfa standards; applyStvo := b |}.

(** The selection with the StVO and ERA flags cleared. *)
Definition withoutStvoEra (standards : Standards) : Standards :=
  {| applyRast := applyRast standards; applyEra := false;
     applyEfa := applyEfa standards; applyStvo := false |}.

Definition allStandards : Standards :=
  {| applyRast := true; applyEra := true; applyEfa := true; applyStvo := true |}.

Definition noStandards : Standards :=
  {| applyRast := false; applyEra := false; applyEfa := false; applyStvo := false |}.

(** The four missing-field violations. *)
Definition missingTotalWidth : Error :=
  {| field := "gesamtbreite";
     message := "Bitte geben Sie die Gesamtbreite des Straßenraums an." |}.
Definition missingLaneCount : Error :=
  {| field := "fahrstreifen";
     message := "Bitte geben Sie die Anzahl der Fahrstreifen an." |}.
Definition missingSidewalkLeft : Error :=
  {| field := "gehwegLinks";
     message := "Bitte geben Sie die Breite des linken Gehwegs an." |}.
Definition missingSidewalkRight : Error :=
  {| field := "gehwegRechts";
     message := "Bitte geben Sie die Breite des rechten Gehwegs an." |}.

(** The violation [e] when the number [v] is falsy, none otherwise. *)
Definition missing (v : float) (e : Error) : list Error :=
  if truthy v then [] else [e].

(** A request with the four widths and counts given and no other field. *)
Definition request (total left right lanes : JS.value) : Data :=
  {| gesamtbreite := total; gehwegLinks := left; gehwegRechts := right;
     fahrstreifen := lanes; busverkehr := undefined;
     radverkehrGewuenscht := undefined; radverkehrArt := undefined;
     radverkehrFuehrung := undefined; parkstaendeGewuenscht := undefined;
     parkart := undefined |}.

(** The violations the specification names for this check: total width and
    lane count only. *)
Definition twoFieldErrors (g : Geometry) : list Error :=
  (missing (totalWidthM g) missingTotalWidth
   ++ missing (lanesCount g) missingLaneCount)%list.

(** The example of the specification: 10 m in all, sidewalks of 2 m, two
    lanes, nothing else and no standard selected. *)
Definition exampleGeometry : Geometry :=
  {| totalWidthM := 10; sidewalkLeftM := 2; sidewalkRightM := 2;
     lanesCount := 2; busTraffic := false; cycleNeeded := false;
     cycleType := ""; cycleSides := ""; parkingNeeded := false;
     parkingType := "" |}.

(** Some violation in [errs] is tagged with the field [f]. *)
Definition reported (f : string) (errs : list Error) : Prop :=
  exists e, In e errs /\ field e = f.

(** The division of [x] by [y] with the guard against a zero or [NaN]
    divisor made explicit. *)
Definition guarded_div (x y : float) : option float :=
  if is_zero y || is_nan y then None else Some (x / y)%float.

(** A marked lane on both sides, with the baseline rules. *)
Definition cycleRequest : Data :=
  {| gesamtbreite := Num 20; gehwegLinks := Num 2; gehwegRechts := Num 2;
     fahrstreifen := Num 2; busverkehr := undefined;
     radverkehrGewuenscht := Str "ja"; radverkehrArt := Str "Radfahrstreifen";
     radverkehrFuehrung := Str "beidseitig"; parkstaendeGewuenscht := undefined;
     parkart := undefined |}.

(** A field that [(v ?? "").toLowerCase()] accepts: absent, [null] or a
    string. *)
Definition textual (v : JS.value) : bool :=
  match v with
  | undefined | null | Str _ => true
  | Bool _ | Num _ | Other _ => false
  end.

(** The three fields the form mapping lower-cases. *)
Definition textFieldsOk (data : Data) : bool :=
  textual (radverkehrArt data) && textual (radverkehrFuehrung data)
  && textual (parkart data).

(** A request whose cycle type is the number 1. *)
Definition numericCycleType : Data :=
  {| gesamtbreite := Num 10; gehwegLinks := Num 2; gehwegRechts := Num 2;
     fahrstreifen := Num 2; busverkehr := undefined;
     radverkehrGewuenscht := Bool true; radverkehrArt := Num 1;
     radverkehrFuehrung := undefined; parkstaendeGewuenscht := undefined;
     parkart := undefined |}.

(** Every standard selected in [s] is selected in [s']. *)
Definition selectedAlso (s s' : Standards) : bool :=
  implb (applyRast s) (applyRast s') && implb (applyEra s) (applyEra s')
  && implb (applyEfa s) (applyEfa s') && implb (applyStvo s) (applyStvo s').

(** The geometry with another cycle type and another cycle guidance. *)
Definition withCycleDetails (ty sides : string) (g : Geometry) : Geometry :=
  {| totalWidthM := totalWidthM g; sidewalkLeftM := sidewalkLeftM g;
     sidewalkRightM := sidewalkRightM g; lanesCount := lanesCount g;
     busTraffic := busTraffic g; cycleNeeded := cycleNeeded g;
     cycleType := ty; cycleSides := sides;
     parkingNeeded := parkingNeeded g; parkingType := parkingType g |}.

(** The geometry with another parking request. *)
Definition withParking (needed : bool) (ty : string) (g : Geometry) : Geometry :=
  {| totalWidthM := totalWidthM g; sidewalkLeftM := sidewalkLeftM g;
     sidewalkRightM := sidewalkRightM g; lanesCount := lanesCount g;
     busTraffic := busTraffic g; cycleNeeded := cycleNeeded g;
     cycleType := cycleType g; cycleSides := cycleSides g;
     parkingNeeded := needed; parkingType := ty |}.

(** The field tags in the order the mandatory-field check and the later
    checks push their violations. *)
Definition mandatoryOrder : list string :=
  ["gesamtbreite"; "fahrstreifen"; "gehwegLinks"; "gehwegRechts"].
Definition checkOrder : list string :=
  ["gehwegLinks"; "gehwegRechts"; "gesamtbreite"; "fahrstreifen"; "fahrstreifen"].

(** The bus advisory for the table [R]. *)
Definition busAdvisory (R : object) : Error :=
  {| field := "fahrstreifen";
     message :=
       "Für Busverkehr wird in der Regel eine Fahrstreifenbreite von mindestens "
       ++ Number_toString (prop R "lane_regular_m") ++ " m empfohlen." |}.

(** Requests for the examples: parking of an unknown kind, and the same
    without parking; a cycle type given although no cycle facility is
    requested. *)
Definition unknownParkingRequest : Data :=
  {| gesamtbreite := Num 12; gehwegLinks := Num 2; gehwegRechts := Num 2;
     fahrstreifen := Num 2; busverkehr := undefined;
     radverkehrGewuenscht := undefined; radverkehrArt := undefined;
     radverkehrFuehrung := undefined; parkstaendeGewuenscht := Str "ja";
     parkart := Str "Laengs" |}.

Definition idleCycleRequest : Data :=
  {| gesamtbreite := Num 12; gehwegLinks := Num 2; gehwegRechts := Num 2;
     fahrstreifen := Num 2; busverkehr := undefined;
     radverkehrGewuenscht := Str "nein"; radverkehrArt := Str "Schutzstreifen";
     radverkehrFuehrung := Str "beidseitig"; parkstaendeGewuenscht := undefined;
     parkart := undefined |}.

(** A narrow street with bus traffic. *)
Definition busRequest : Data :=
  {| gesamtbreite := Num 9; gehwegLinks := Num 2; gehwegRechts := Num 2;
     fahrstreifen := Num 2; busverkehr := Bool true;
     radverkehrGewuenscht := undefined; radverkehrArt := undefined;
     radverkehrFuehrung := undefined; parkstaendeGewuenscht := undefined;
     parkart := undefined |}.

(** The geometry of [busRequest]. *)
Definition busGeometry : Geometry :=
  {| totalWidthM := 9; sidewalkLeftM := 2; sidewalkRightM := 2;
     lanesCount := 2; busTraffic := true; cycleNeeded := false;
     cycleType := ""; cycleSides := ""; parkingNeeded := false;
     parkingType := "" |}.

(** The body of a request with the given form fields and flags. *)
Definition bodyOf (data : Data) (rast era efa stvo : JS.value) : Body :=
  {| form := data; rast := rast; era := era; efa := efa; stvo := stvo |}.

(** The rule table the earlier [buildRules] makes when the module has just
    been loaded. *)
Definition legacyRules (standards : Standards) : object :=
  match Legacy.buildRules standards module_store with
  | (Ret l, h) => h !!! l
  | (Throw _, _) => ∅
  end.

(** A request of the earlier validator with the four numbers given under
    their first names and nothing else. *)
Definition legacyRequest (total left right lanes : JS.value) : Legacy.Data :=
  {| Legacy.in_totalWidthM := total; Legacy.total_width_m := undefined;
     Legacy.in_sidewalkLeftM := left; Legacy.sidewalk_left_m := undefined;
     Legacy.in_sidewalkRightM := right; Legacy.sidewalk_right_m := undefined;
     Legacy.in_lanesCount := lanes; Legacy.lanes_count := undefined;
     Legacy.bus := undefined; Legacy.in_busTraffic := undefined;
     Legacy.in_cycleNeeded := undefined; Legacy.cycle_needed := undefined;
     Legacy.in_cycleType := undefined; Legacy.cycle_type := undefined;
     Legacy.in_cycleSides := undefined; Legacy.cycle_sides := undefined;
     Legacy.in_parkingNeeded := undefined; Legacy.parking_needed := undefined;
     Legacy.in_parkingType := undefined; Legacy.parking_type := undefined |}.

(** The same with parking requested, of the given type. *)
Definition legacyParkingRequest (total left right lanes ty : JS.value) : Legacy.Data :=
  {| Legacy.in_totalWidthM := total; Legacy.total_width_m := undefined;
     Legacy.in_sidewalkLeftM := left; Legacy.sidewalk_left_m := undefined;
     Legacy.in_sidewalkRightM := right; Legacy.sidewalk_right_m := undefined;
     Legacy.in_lanesCount := lanes; Legacy.lanes_count := undefined;
     Legacy.bus := undefined; Legacy.in_busTraffic := undefined;
     Legacy.in_cycleNeeded := undefined; Legacy.cycle_needed := undefined;
     Legacy.in_cycleType := undefined; Legacy.cycle_type := undefined;
     Legacy.in_cycleSides := undefined; Legacy.cycle_sides := undefined;
     Legacy.in_parkingNeeded := Bool true; Legacy.parking_needed := undefined;
     Legacy.in_parkingType := ty; Legacy.parking_type := undefined |}.

(** A body of the earlier route with the given form and the given value of
    the flag [rast]; no other flag is set. *)
Definition legacyBody (data : Legacy.Data) (rast : JS.value) : Legacy.Body :=
  {| Legacy.form := data;
     Legacy.RASt := undefined; Legacy.rast := rast; Legacy.in_applyRast := undefined;
     Legacy.ERA := undefined; Legacy.era := undefined; Legacy.in_applyEra := undefined;
     Legacy.EFA := undefined; Legacy.efa := undefined; Legacy.in_applyEfa := undefined;
     Legacy.StVO := undefined; Legacy.stvo := undefined;
     Legacy.in_applyStvo := undefined |}.

(** The selection the earlier route reads from a body. *)
Definition legacySelection (body : Legacy.Body) : Standards :=
  {| applyRast :=
       toBool (Legacy.RASt body) || toBool (Legacy.rast body)
       || toBool (Legacy.in_applyRast body);
     applyEra :=
       toBool (Legacy.ERA body) || toBool (Legacy.era body)
       || toBool (Legacy.in_applyEra body);
     applyEfa :=
       toBool (Legacy.EFA body) || toBool (Legacy.efa body)
       || toBool (Legacy.in_applyEfa body);
     applyStvo :=
       toBool (Legacy.StVO body) || toBool (Legacy.stvo body)
       || toBool (Legacy.in_applyStvo body) |}.

(** No standard is selected. *)
Definition noneSelected (standards : Standards) : bool :=
  negb (applyRast standards) && negb (applyEra standards)
  && negb (applyEfa standards) && negb (applyStvo standards).

(** The geometry with another left sidewalk. *)
Definition withSidewalkLeft (width : float) (g : Geometry) : Geometry :=
  {| totalWidthM := totalWidthM g; sidewalkLeftM := width;
     sidewalkRightM := sidewalkRightM g; lanesCount := lanesCount g;
     busTraffic := busTraffic g; cycleNeeded := cycleNeeded g;
     cycleType := cycleType g; cycleSides := cycleSides g;
     parkingNeeded := parkingNeeded g; parkingType := parkingType g |}.

(** ** Comparisons of numbers *)

Lemma SFcompare_swap x y :
  SFcompare y x = option_map CompOpp (SFcompare x y).
Proof.
  destruct x as [sx|sx| |sx mx ex], y as [sy|sy| |sy my ey]; cbn;
    try reflexivity; try (destruct sx; reflexivity);
    try (destruct sy; reflexivity); try (destruct sx, sy; reflexivity).
  change (PosDef.Pos.compare_cont Eq my mx) with (Pos.compare my mx).
  change (PosDef.Pos.compare_cont Eq mx my) with (Pos.compare mx my).
  rewrite (Z.compare_antisym ey ex), (Pos.compare_antisym mx my).
  destruct sx, sy; cbn; try reflexivity;
    destruct (ey ?= ex)%Z; cbn; try reflexivity;
    now rewrite CompOpp_involutive.
Qed.

(** [a <= b] excludes [b < a], also when [NaN] is around. *)
Lemma leb_ltb_false (a b : float) :
  (a <=? b)%float = true -> (b <? a)%float = false.
Proof.
  rewrite leb_spec, ltb_spec. unfold SFleb, SFltb.
  rewrite (SFcompare_swap (Prim2SF a) (Prim2SF b)).
  destruct (SFcompare (Prim2SF a) (Prim2SF b)) as [[]|]; cbn; congruence.
Qed.

Lemma ltb_irrefl (a : float) : (a <? a)%float = false.
Proof.
  rewrite ltb_spec. unfold SFltb.
  pose proof (SFcompare_swap (Prim2SF a) (Prim2SF a)) as H.
  destruct (SFcompare (Prim2SF a) (Prim2SF a)) as [[]|]; cbn in *; congruence.
Qed.

(** [toNumber] never returns [NaN] or an infinity when the fallback is
    finite. *)
Lemma toNumber_finite value fallback :
  is_finite fallback = true -> is_finite (toNumber value fallback) = true.
Proof.
  intros Hf. unfold toNumber, isFinite.
  destruct (is_finite (Number value)) eqn:E; assumption.
Qed.

Lemma toNumber1_finite value : is_finite (toNumber1 value) = true.
Proof. apply toNumber_finite. reflexivity. Qed.

(** ** Running computations *)

Lemma returns_ret {A} (a : A) h (Q : A -> store -> Prop) :
  Q a h -> returns (ret a) h Q.
Proof. intros HQ. exists a, h. split; [reflexivity | exact HQ]. Qed.

Lemma returns_bind {A B} (c : M A) (k : A -> M B) h P (Q : B -> store -> Prop) :
  returns c h P ->
  (forall a h', P a h' -> returns (k a) h' Q) ->
  returns (bind c k) h Q.
Proof.
  intros (a & h' & Hc & HP) Hk.
  destruct (Hk a h' HP) as (b & h'' & Hka & HQ).
  exists b, h''. split; [| exact HQ].
  unfold bind. rewrite Hc. exact Hka.
Qed.

Lemma returns_mono {A} (c : M A) h (P Q : A -> store -> Prop) :
  returns c h P -> (forall a h', P a h' -> Q a h') -> returns c h Q.
Proof. intros (a & h' & Hc & HP) HPQ. exists a, h'. auto. Qed.

Lemma lookup_total_of (h : store) l t : h !! l = Some t -> h !!! l = t.
Proof. intros H. rewrite lookup_total_alt, H. reflexivity. Qed.

Lemma extends_lookup (h0 h : store) l t :
  h0 ⊆ h -> h0 !! l = Some t -> h !!! l = t.
Proof.
  intros Hsub Hl. apply lookup_total_of.
  eapply lookup_weaken; eassumption.
Qed.

Lemma fresh_unused (h : store) : h !! fresh (dom h) = None.
Proof. apply not_elem_of_dom, is_fresh. Qed.

Lemma extends_unused (h0 h : store) l : h0 ⊆ h -> h !! l = None -> h0 !! l = None.
Proof.
  intros Hsub Hl. destruct (h0 !! l) as [t|] eqn:E; [| reflexivity].
  rewrite (lookup_weaken _ _ _ _ E Hsub) in Hl. discriminate.
Qed.

Lemma returns_alloc_owns (h0 h : store) (o : object) :
  h0 ⊆ h -> returns (alloc o) h (fun l h' => owns h0 h' l o).
Proof.
  intros Hsub. eexists _, _. split; [reflexivity |].
  pose proof (fresh_unused h) as Hf.
  split; [| split].
  - etrans; [exact Hsub |]. apply insert_subseteq, Hf.
  - eapply extends_unused; eassumption.
  - apply lookup_insert_eq.
Qed.

(** [{ ...c }] for a catalog object [c]. *)
Lemma returns_spread1 (h0 h : store) c (oc : object) :
  h0 ⊆ h -> h0 !! c = Some oc ->
  returns (spread [c]) h (fun l h' => owns h0 h' l oc).
Proof.
  intros Hsub Hc.
  destruct (returns_alloc_owns h0 h ((h !!! c) ∪ ∅) Hsub) as (l & h' & Hrun & Hown).
  exists l, h'. split; [exact Hrun |].
  rewrite (extends_lookup h0 h c oc Hsub Hc), (right_id_L ∅ (∪)) in Hown.
  exact Hown.
Qed.

(** [{ ...rules, ...c }] for an object [rules] of our own and a catalog
    object [c]. *)
Lemma returns_spread2 (h0 h : store) rules (t : object) c (oc : object) :
  owns h0 h rules t -> h0 !! c = Some oc ->
  returns (spread [rules; c]) h (fun l h' => owns h0 h' l (oc ∪ t)).
Proof.
  intros (Hsub & Hnew & Hl) Hc.
  destruct (returns_alloc_owns h0 h ((h !!! c) ∪ ((h !!! rules) ∪ ∅)) Hsub)
    as (l & h' & Hrun & Hown).
  exists l, h'. split; [exact Hrun |].
  rewrite (extends_lookup h0 h c oc Hsub Hc), (lookup_total_of h rules t Hl),
    (right_id_L ∅ (∪)) in Hown.
  exact Hown.
Qed.

Lemma returns_get_own (h0 h : store) l (t : object) k :
  owns h0 h l t ->
  returns (get l k) h (fun v h' => v = prop t k /\ h' = h).
Proof.
  intros (_ & _ & Hl). eexists _, _. split; [reflexivity |].
  rewrite (lookup_total_of h l t Hl). auto.
Qed.

Lemma returns_get_catalog (h0 h : store) c (oc : object) k :
  h0 ⊆ h -> h0 !! c = Some oc ->
  returns (get c k) h (fun v h' => v = prop oc k /\ h' = h).
Proof.
  intros Hsub Hc. eexists _, _. split; [reflexivity |].
  rewrite (extends_lookup h0 h c oc Hsub Hc). auto.
Qed.

Lemma returns_set_own (h0 h : store) l (t : object) k v :
  owns h0 h l t ->
  returns (set l k v) h (fun _ h' => owns h0 h' l (<[k := v]> t)).
Proof.
  intros (Hsub & Hnew & Hl). eexists _, _. split; [reflexivity |].
  rewrite (lookup_total_of h l t Hl).
  split; [| split].
  - apply insert_subseteq_r; assumption.
  - exact Hnew.
  - apply lookup_insert_eq.
Qed.

Lemma returns_ret_ref (h0 h : store) l (t : object) :
  owns h0 h l t -> returns (ret l) h (fun l' h' => owns h0 h' l' t).
Proof. intros H. apply returns_ret, H. Qed.

Lemma returns_ret_unit (h0 h : store) l (t : object) :
  owns h0 h l t -> returns (ret tt) h (fun _ h' => owns h0 h' l t).
Proof. intros H. apply returns_ret, H. Qed.

(** Closes a decidable goal by evaluating its decision procedure. *)
Ltac by_evaluation := apply (bool_decide_unpack _); vm_compute; exact I.

Ltac run_prim :=
  first
    [ eapply returns_spread1; eassumption
    | eapply returns_spread2; eassumption
    | eapply returns_get_own; eassumption
    | eapply returns_get_catalog; [ eapply proj1; eassumption | eassumption ]
    | eapply returns_set_own; eassumption
    | eapply returns_ret_unit; eassumption
    | eapply returns_ret_ref; eassumption ].

Ltac run_intro :=
  let a := fresh "a" in
  let h := fresh "h" in
  let H := fresh "Hown" in
  intros a h H; cbv beta in H |- *;
  try (destruct H as [-> ->]).

Ltac run_all :=
  lazymatch goal with
  | |- returns (bind _ _) _ _ => eapply returns_bind; [ run_all | run_intro; run_all ]
  | |- returns _ _ _ => run_prim
  end.

(** In any store where the catalog is intact, [buildRules] returns a new
    object, leaves every object that was there as it was, and the new object
    is the table [effectiveRules]. *)
Lemma buildRules_returns (standards : Standards) (h0 : store) :
  catalog_ok h0 ->
  returns (buildRules standards) h0 (fun l h => owns h0 h l (effectiveRules standards)).
Proof.
  intros (Hbase & Hrast & Hera & Hefa & Hstvo).
  assert (Hsub : h0 ⊆ h0) by reflexivity.
  destruct standards as [[] [] [] []]; unfold buildRules;
    cbn [applyRast applyEra applyEfa applyStvo].
  all: eapply returns_mono; [ run_all | ].
  all: cbv beta; intros l h (Hs & Hn & Hl); (split; [exact Hs | split; [exact Hn |]]).
  all: rewrite Hl; f_equal; by_evaluation.
Qed.

(** The catalog survives any extension of the store. *)
Lemma catalog_ok_extends (h0 h : store) : catalog_ok h0 -> h0 ⊆ h -> catalog_ok h.
Proof.
  intros (Hb & Hr & He & Hf & Hs) Hsub.
  repeat split; eapply lookup_weaken; eassumption.
Qed.

Lemma catalog_ok_module_store : catalog_ok module_store.
Proof. repeat split. Qed.

(** The validator, run: the rules are built, the form is mapped, and the
    result is [validateGeometry] on the table [effectiveRules]. *)
Lemma validate_run (data : Data) (standards : Standards) (h0 : store) (g : Geometry) :
  catalog_ok h0 -> formMapping data = Ret g ->
  exists l h,
    validateDesignWithStandards data standards h0
    = (Ret (validateGeometry g (effectiveRules standards) l standards), h)
    /\ owns h0 h l (effectiveRules standards).
Proof.
  intros Hcat Hg.
  destruct (buildRules_returns standards h0 Hcat) as (l & h & Hrun & Hown).
  exists l, h. split; [| exact Hown].
  unfold validateDesignWithStandards, bind, lift, deref, ret.
  rewrite Hrun, Hg.
  destruct Hown as (_ & _ & Hl). rewrite (lookup_total_of h l _ Hl). reflexivity.
Qed.

(** When the form mapping throws, so does the validator. *)
Lemma validate_throws (data : Data) (standards : Standards) (h0 : store) e :
  catalog_ok h0 -> formMapping data = Throw e ->
  exists h, validateDesignWithStandards data standards h0 = (Throw e, h).
Proof.
  intros Hcat Hg.
  destruct (buildRules_returns standards h0 Hcat) as (l & h & Hrun & Hown).
  exists h. unfold validateDesignWithStandards, bind, lift.
  rewrite Hrun, Hg. reflexivity.
Qed.

(** The same in terms of [returns]. *)
Lemma validate_returns (data : Data) (standards : Standards) (h0 : store) (g : Geometry) :
  catalog_ok h0 -> formMapping data = Ret g ->
  returns (validateDesignWithStandards data standards) h0 (fun r h =>
    exists l, r = validateGeometry g (effectiveRules standards) l standards
              /\ h !! l = Some (effectiveRules standards)).
Proof.
  intros Hcat Hg.
  destruct (validate_run data standards h0 g Hcat Hg) as (l & h & Hrun & Hown).
  eexists _, h. split; [exact Hrun |].
  exists l. split; [reflexivity | apply Hown].
Qed.

(** ** The rule merger *)

(** C3: with the StVO standard selected, the effective table's lane_min_m and
    lane_regular_m are at least those of the baseline table, and at least
    those of the table for the same selection without StVO: selecting it
    never decreases either value. *)
Theorem stvo_never_narrows_lanes (standards : Standards) (h0 : store) :
  catalog_ok h0 ->
  returns (buildRules (withStvo true standards)) h0 (fun l h =>
    exists t : object, h !! l = Some t /\
      (prop BASE_RULES_literal "lane_min_m" <=? prop t "lane_min_m")%float = true /\
      (prop BASE_RULES_literal "lane_regular_m" <=? prop t "lane_regular_m")%float = true /\
      returns (buildRules (withStvo false standards)) h0 (fun l' h' =>
        exists t' : object, h' !! l' = Some t' /\
          (prop t' "lane_min_m" <=? prop t "lane_min_m")%float = true /\
          (prop t' "lane_regular_m" <=? prop t "lane_regular_m")%float = true)).
Proof.
  intros Hcat.
  eapply returns_mono; [apply buildRules_returns, Hcat |].
  cbv beta. intros l h (_ & _ & Hl).
  exists (effectiveRules (withStvo true standards)).
  split; [exact Hl |].
  split; [destruct standards as [[] [] [] ?]; vm_compute; reflexivity |].
  split; [destruct standards as [[] [] [] ?]; vm_compute; reflexivity |].
  eapply returns_mono; [apply buildRules_returns, Hcat |].
  cbv beta. intros l' h' (_ & _ & Hl').
  exists (effectiveRules (withStvo false standards)).
  split; [exact Hl' |].
  split; destruct standards as [[] [] [] ?]; vm_compute; reflexivity.
Qed.

Lemma stvo_never_narrows_lanes_witness :
  returns (buildRules (withStvo true noStandards)) module_store (fun l h =>
    exists t : object, h !! l = Some t /\
      (prop BASE_RULES_literal "lane_min_m" <=? prop t "lane_min_m")%float = true /\
      (prop BASE_RULES_literal "lane_regular_m" <=? prop t "lane_regular_m")%float = true /\
      returns (buildRules (withStvo false noStandards)) module_store (fun l' h' =>
        exists t' : object, h' !! l' = Some t' /\
          (prop t' "lane_min_m" <=? prop t "lane_min_m")%float = true /\
          (prop t' "lane_regular_m" <=? prop t "lane_regular_m")%float = true)).
Proof.
  apply (stvo_never_narrows_lanes noStandards module_store).
  repeat split.
Defined.

(** C4: the merger is a deterministic function of the selection. In any
    store with the catalog intact a call returns a new object whose table is
    [effectiveRules standards], a function of the selection alone; a second
    call, run in the store the first one left, returns another new object
    with the same table: every key maps to the same value. No object that
    existed before a call is changed by it, the catalog included. *)
Theorem buildRules_pure (standards : Standards) (h0 : store) :
  catalog_ok h0 ->
  returns (buildRules standards) h0 (fun l1 h1 =>
    h0 ⊆ h1 /\ h0 !! l1 = None /\
    h1 !! l1 = Some (effectiveRules standards) /\
    returns (buildRules standards) h1 (fun l2 h2 =>
      h1 ⊆ h2 /\ h1 !! l2 = None /\ catalog_ok h2 /\
      h2 !! l2 = Some (effectiveRules standards) /\
      forall k, (h2 !!! l2) !! k = (h2 !!! l1) !! k)).
Proof.
  intros Hcat.
  eapply returns_mono; [apply buildRules_returns, Hcat |].
  cbv beta. intros l1 h1 (Hsub1 & Hnew1 & Hl1).
  repeat (split; [assumption |]).
  pose proof (catalog_ok_extends h0 h1 Hcat Hsub1) as Hcat1.
  eapply returns_mono; [apply buildRules_returns, Hcat1 |].
  cbv beta. intros l2 h2 (Hsub2 & Hnew2 & Hl2).
  repeat (split; [assumption |]).
  split; [eapply catalog_ok_extends; eassumption |].
  split; [assumption |].
  intros k.
  rewrite (lookup_total_of h2 l2 _ Hl2).
  rewrite (extends_lookup h1 h2 l1 _ Hsub2 Hl1). reflexivity.
Qed.

Lemma buildRules_pure_witness :
  returns (buildRules allStandards) module_store (fun l1 h1 =>
    module_store ⊆ h1 /\ module_store !! l1 = None /\
    h1 !! l1 = Some (effectiveRules allStandards) /\
    returns (buildRules allStandards) h1 (fun l2 h2 =>
      h1 ⊆ h2 /\ h1 !! l2 = None /\ catalog_ok h2 /\
      h2 !! l2 = Some (effectiveRules allStandards) /\
      forall k, (h2 !!! l2) !! k = (h2 !!! l1) !! k)).
Proof.
  apply (buildRules_pure allStandards module_store).
  repeat split.
Defined.

(** C5: every key of the baseline table is a key of the effective table,
    whatever the selection, and the three cycle keys are always there. *)
Theorem baseline_keys_kept (standards : Standards) (h0 : store) :
  catalog_ok h0 ->
  returns (buildRules standards) h0 (fun l h =>
    exists t : object, h !! l = Some t /\
      (forall k, is_Some (BASE_RULES_literal !! k) -> is_Some (t !! k)) /\
      is_Some (t !! "cycle_schutz_min_m") /\
      is_Some (t !! "cycle_radfahr_min_m") /\
      is_Some (t !! "cycle_baulich_min_m")).
Proof.
  intros Hcat.
  eapply returns_mono; [apply buildRules_returns, Hcat |].
  cbv beta. intros l h (_ & _ & Hl).
  exists (effectiveRules standards). split; [exact Hl |].
  split.
  - intros k [v Hk].
    assert (Hall : map_Forall (fun k _ => is_Some (effectiveRules standards !! k))
                     BASE_RULES_literal).
    { destruct standards as [[] [] [] []];
        refine (@bool_decide_unpack _ (map_Forall_dec _ _) _);
        vm_compute; exact I. }
    exact (Hall k v Hk).
  - repeat split; apply (bool_decide_unpack _);
      destruct standards as [[] [] [] []]; vm_compute; exact I.
Qed.

Lemma baseline_keys_kept_witness :
  returns (buildRules noStandards) module_store (fun l h =>
    exists t : object, h !! l = Some t /\
      (forall k, is_Some (BASE_RULES_literal !! k) -> is_Some (t !! k)) /\
      is_Some (t !! "cycle_schutz_min_m") /\
      is_Some (t !! "cycle_radfahr_min_m") /\
      is_Some (t !! "cycle_baulich_min_m")).
Proof.
  apply (baseline_keys_kept noStandards module_store).
  repeat split.
Defined.

(** C9: the StVO and ERA flags do not change the effective table: the
    merger returns the same table for a selection and for that selection
    with both flags cleared. *)
Theorem stvo_era_flags_inert (standards : Standards) (h0 : store) :
  catalog_ok h0 ->
  returns (buildRules standards) h0 (fun l h =>
    returns (buildRules (withoutStvoEra standards)) h0 (fun l' h' =>
      exists t : object, h !! l = Some t /\ h' !! l' = Some t)).
Proof.
  intros Hcat.
  eapply returns_mono; [apply buildRules_returns, Hcat |].
  cbv beta. intros l h (_ & _ & Hl).
  eapply returns_mono; [apply buildRules_returns, Hcat |].
  cbv beta. intros l' h' (_ & _ & Hl').
  exists (effectiveRules standards). split; [exact Hl |].
  rewrite Hl'. f_equal.
  destruct standards as [[] [] [] []]; by_evaluation.
Qed.

Lemma stvo_era_flags_inert_witness :
  returns (buildRules allStandards) module_store (fun l h =>
    returns (buildRules (withoutStvoEra allStandards)) module_store (fun l' h' =>
      exists t : object, h !! l = Some t /\ h' !! l' = Some t)).
Proof.
  apply (stvo_era_flags_inert allStandards module_store).
  repeat split.
Defined.

(** ** The validator *)

Lemma mandatoryErrors_missing (g : Geometry) :
  mandatoryErrors g
  = (missing (totalWidthM g) missingTotalWidth
     ++ missing (lanesCount g) missingLaneCount
     ++ missing (sidewalkLeftM g) missingSidewalkLeft
     ++ missing (sidewalkRightM g) missingSidewalkRight)%list.
Proof.
  unfold mandatoryErrors, missing, addError.
  destruct (truthy (totalWidthM g)), (truthy (lanesCount g)),
    (truthy (sidewalkLeftM g)), (truthy (sidewalkRightM g)); reflexivity.
Qed.

Lemma mandatoryErrors_nil (g : Geometry) :
  mandatoryErrors g = [] <->
  truthy (totalWidthM g) = true /\ truthy (lanesCount g) = true /\
  truthy (sidewalkLeftM g) = true /\ truthy (sidewalkRightM g) = true.
Proof.
  rewrite mandatoryErrors_missing. unfold missing.
  destruct (truthy (totalWidthM g)), (truthy (lanesCount g)),
    (truthy (sidewalkLeftM g)), (truthy (sidewalkRightM g)); cbn;
    split; intros H; try discriminate; try tauto;
    destruct H as (? & ? & ? & ?); discriminate.
Qed.

(** C1, as the code has it: when the coerced total width or the coerced lane
    count is zero, the validator returns ok = false, an empty summary, no
    rules, and exactly the applicable missing-field violations, in the order
    total width, lane count, left sidewalk, right sidewalk: the two sidewalk
    widths are mandatory fields too. No other violation is reported. *)
Theorem mandatory_fields_short_circuit
    (data : Data) (standards : Standards) (h0 : store) (g : Geometry) :
  catalog_ok h0 -> formMapping data = Ret g ->
  is_zero (totalWidthM g) = true \/ is_zero (lanesCount g) = true ->
  returns (validateDesignWithStandards data standards) h0 (fun r _ =>
    r = {| ok := false;
           errors :=
             (missing (totalWidthM g) missingTotalWidth
              ++ missing (lanesCount g) missingLaneCount
              ++ missing (sidewalkLeftM g) missingSidewalkLeft
              ++ missing (sidewalkRightM g) missingSidewalkRight)%list;
           summary := None; rules := None; standardsApplied := None |}
    /\ errors r <> []
    /\ forall e, In e (errors r) ->
         In e [missingTotalWidth; missingLaneCount;
               missingSidewalkLeft; missingSidewalkRight]).
Proof.
  intros Hcat Hg Hzero.
  destruct (validate_run data standards h0 g Hcat Hg) as (l & h & Hrun & _).
  exists (validateGeometry g (effectiveRules standards) l standards), h.
  split; [exact Hrun |].
  assert (Hfalsy : truthy (totalWidthM g) = false \/ truthy (lanesCount g) = false).
  { unfold truthy. destruct Hzero as [-> | ->]; [left | right]; reflexivity. }
  clear Hzero.
  unfold validateGeometry. rewrite mandatoryErrors_missing. unfold missing.
  destruct (truthy (totalWidthM g)), (truthy (lanesCount g));
    try (destruct Hfalsy; discriminate);
    destruct (truthy (sidewalkLeftM g)), (truthy (sidewalkRightM g)); cbn;
    (split; [reflexivity | split; [discriminate | intros e He; tauto]]).
Qed.

Lemma mandatory_fields_short_circuit_witness :
  returns
    (validateDesignWithStandards (request (Num 0) (Str "2") (Str "2") undefined)
       noStandards)
    module_store
    (fun r _ =>
       r = {| ok := false;
              errors := [missingTotalWidth; missingLaneCount];
              summary := None; rules := None; standardsApplied := None |}
       /\ errors r <> []
       /\ forall e, In e (errors r) ->
            In e [missingTotalWidth; missingLaneCount;
                  missingSidewalkLeft; missingSidewalkRight]).
Proof.
  apply (mandatory_fields_short_circuit
           (request (Num 0) (Str "2") (Str "2") undefined) noStandards module_store
           {| totalWidthM := 0; sidewalkLeftM := 2; sidewalkRightM := 2;
              lanesCount := 0; busTraffic := false; cycleNeeded := false;
              cycleType := ""; cycleSides := ""; parkingNeeded := false;
              parkingType := "" |}).
  - repeat split.
  - vm_compute. reflexivity.
  - left. vm_compute. reflexivity.
Defined.

(** C1 as stated fails: with the total width zero and the left sidewalk
    absent the validator also reports the missing left sidewalk, a violation
    that is neither the total-width nor the lane-count one. *)
Lemma mandatory_fields_counterexample :
  exists g,
    formMapping (request (Num 0) undefined (Num 2) (Num 2)) = Ret g /\
    is_zero (totalWidthM g) = true /\
    returns
      (validateDesignWithStandards (request (Num 0) undefined (Num 2) (Num 2))
         noStandards)
      module_store
      (fun r _ =>
         ok r = false /\
         errors r = [missingTotalWidth; missingSidewalkLeft] /\
         twoFieldErrors g = [missingTotalWidth] /\
         errors r <> twoFieldErrors g).
Proof.
  eexists. split; [vm_compute; reflexivity |].
  split; [vm_compute; reflexivity |].
  eapply returns_mono;
    [apply validate_returns; [apply catalog_ok_module_store | vm_compute; reflexivity] |].
  cbv beta. intros r h (l & -> & _). vm_compute.
  repeat (split; [reflexivity |]). discriminate.
Qed.

(** Past the mandatory-field check every later check runs. *)
Lemma validateGeometry_checked (g : Geometry) (R : object) l standards :
  mandatoryErrors g = [] ->
  validateGeometry g R l standards
  = {| ok := (length (laneErrors g R (requiredErrors g R (sidewalkErrors g R [])))
              =? 0)%nat;
       errors := laneErrors g R (requiredErrors g R (sidewalkErrors g R []));
       summary := Some (validationSummary g R);
       rules := Some l;
       standardsApplied := Some standards |}.
Proof. intros Hm. unfold validateGeometry. rewrite Hm. reflexivity. Qed.

(** C2, as the code has it: past the mandatory-field check, when both
    sidewalks are at least sidewalk_min_m wide, the aggregate required width
    is at most the total width, the approximate lane width is at least
    lane_min_m and, with bus traffic, at least lane_regular_m, the validator
    returns ok = true and no violation. *)
Theorem fitting_design_is_ok
    (data : Data) (standards : Standards) (h0 : store) (g : Geometry) :
  catalog_ok h0 -> formMapping data = Ret g -> mandatoryErrors g = [] ->
  (prop (effectiveRules standards) "sidewalk_min_m" <=? sidewalkLeftM g)%float = true ->
  (prop (effectiveRules standards) "sidewalk_min_m" <=? sidewalkRightM g)%float = true ->
  (requiredMin g (effectiveRules standards) <=? totalWidthM g)%float = true ->
  (prop (effectiveRules standards) "lane_min_m"
     <=? approxLaneWidth g (effectiveRules standards))%float = true ->
  (busTraffic g = false \/
   (prop (effectiveRules standards) "lane_regular_m"
      <=? approxLaneWidth g (effectiveRules standards))%float = true) ->
  returns (validateDesignWithStandards data standards) h0 (fun r h =>
    ok r = true /\ errors r = [] /\
    exists l, rules r = Some l /\ h !! l = Some (effectiveRules standards)).
Proof.
  intros Hcat Hg Hm Hleft Hright Hreq Hlane Hbus.
  destruct (validate_run data standards h0 g Hcat Hg) as (l & h & Hrun & Hown).
  eexists _, h. split; [exact Hrun |].
  rewrite (validateGeometry_checked g _ l standards Hm). cbn [ok errors rules].
  assert (Herr : laneErrors g (effectiveRules standards)
                   (requiredErrors g (effectiveRules standards)
                      (sidewalkErrors g (effectiveRules standards) [])) = []).
  { unfold sidewalkErrors, requiredErrors, laneErrors.
    rewrite (leb_ltb_false _ _ Hleft), (leb_ltb_false _ _ Hright),
      (leb_ltb_false _ _ Hreq), (leb_ltb_false _ _ Hlane).
    destruct Hbus as [-> | Hreg]; [reflexivity |].
    rewrite (leb_ltb_false _ _ Hreg), andb_false_r. reflexivity. }
  rewrite Herr. split; [reflexivity |]. split; [reflexivity |].
  exists l. split; [reflexivity |]. apply Hown.
Qed.

Lemma fitting_design_is_ok_witness :
  requiredMin exampleGeometry (effectiveRules noStandards) = 9.5%float /\
  approxLaneWidth exampleGeometry (effectiveRules noStandards) = 3%float /\
  returns
    (validateDesignWithStandards (request (Num 10) (Num 2) (Num 2) (Num 2))
       noStandards)
    module_store
    (fun r h =>
       ok r = true /\ errors r = [] /\
       exists l, rules r = Some l /\ h !! l = Some (effectiveRules noStandards)).
Proof.
  split; [vm_compute; reflexivity |].
  split; [vm_compute; reflexivity |].
  apply (fitting_design_is_ok (request (Num 10) (Num 2) (Num 2) (Num 2))
           noStandards module_store exampleGeometry).
  - repeat split.
  - vm_compute. reflexivity.
  - vm_compute. reflexivity.
  - vm_compute. reflexivity.
  - vm_compute. reflexivity.
  - vm_compute. reflexivity.
  - vm_compute. reflexivity.
  - left. reflexivity.
Defined.

(** C2 as stated fails: 10 m in all, a left sidewalk of 1 m, a right one of
    2 m and two lanes pass the mandatory-field check, need 8.5 m and leave
    3.5 m a lane, and yet the left sidewalk is reported as too narrow. *)
Lemma fitting_design_counterexample :
  exists g,
    formMapping (request (Num 10) (Num 1) (Num 2) (Num 2)) = Ret g /\
    mandatoryErrors g = [] /\
    (requiredMin g (effectiveRules noStandards) <=? totalWidthM g)%float = true /\
    (prop (effectiveRules noStandards) "lane_min_m"
       <=? approxLaneWidth g (effectiveRules noStandards))%float = true /\
    returns
      (validateDesignWithStandards (request (Num 10) (Num 1) (Num 2) (Num 2))
         noStandards)
      module_store
      (fun r _ =>
         ok r = false /\
         errors r =
           [{| field := "gehwegLinks";
               message := "Linker Gehweg ist mit 1 m schmaler als die Mindestbreite von 1.5 m." |}]).
Proof.
  eexists. split; [vm_compute; reflexivity |].
  split; [vm_compute; reflexivity |].
  split; [vm_compute; reflexivity |].
  split; [vm_compute; reflexivity |].
  eapply returns_mono;
    [apply validate_returns; [apply catalog_ok_module_store | vm_compute; reflexivity] |].
  cbv beta. intros r h (l & -> & _). vm_compute.
  split; reflexivity.
Qed.

Lemma reported_sidewalk_left (g : Geometry) (R : object) :
  reported "gehwegLinks" (laneErrors g R (requiredErrors g R (sidewalkErrors g R [])))
  <-> (sidewalkLeftM g <? prop R "sidewalk_min_m")%float = true.
Proof.
  unfold reported, laneErrors, requiredErrors, sidewalkErrors, addError.
  destruct (sidewalkLeftM g <? prop R "sidewalk_min_m")%float;
    destruct (sidewalkRightM g <? prop R "sidewalk_min_m")%float;
    destruct (totalWidthM g <? requiredMin g R)%float;
    destruct (approxLaneWidth g R <? prop R "lane_min_m")%float;
    destruct (busTraffic g && (approxLaneWidth g R <? prop R "lane_regular_m")%float);
    cbn [app]; (split; [intros (e & He & Hf) | intros H]);
    try reflexivity; try discriminate;
    try (eexists; split; [left; reflexivity | reflexivity]);
    cbn [In] in He;
    repeat (destruct He as [<- | He]; [cbn in Hf; discriminate |]);
    destruct He.
Qed.

Lemma reported_sidewalk_right (g : Geometry) (R : object) :
  reported "gehwegRechts" (laneErrors g R (requiredErrors g R (sidewalkErrors g R [])))
  <-> (sidewalkRightM g <? prop R "sidewalk_min_m")%float = true.
Proof.
  unfold reported, laneErrors, requiredErrors, sidewalkErrors, addError.
  destruct (sidewalkLeftM g <? prop R "sidewalk_min_m")%float;
    destruct (sidewalkRightM g <? prop R "sidewalk_min_m")%float;
    destruct (totalWidthM g <? requiredMin g R)%float;
    destruct (approxLaneWidth g R <? prop R "lane_min_m")%float;
    destruct (busTraffic g && (approxLaneWidth g R <? prop R "lane_regular_m")%float);
    cbn [app]; (split; [intros (e & He & Hf) | intros H]);
    try reflexivity; try discriminate;
    try (eexists; split; [left; reflexivity | reflexivity]);
    try (eexists; split; [right; left; reflexivity | reflexivity]);
    cbn [In] in He;
    repeat (destruct He as [<- | He]; [cbn in Hf; discriminate |]);
    destruct He.
Qed.

(** C7: past the mandatory-field check a sidewalk violation is reported for
    a side if and only if that side's width is strictly below the effective
    sidewalk_min_m; a width equal to the minimum is accepted. *)
Theorem sidewalk_violation_iff_below_min
    (data : Data) (standards : Standards) (h0 : store) (g : Geometry) :
  catalog_ok h0 -> formMapping data = Ret g -> mandatoryErrors g = [] ->
  returns (validateDesignWithStandards data standards) h0 (fun r h =>
    exists l (t : object), rules r = Some l /\ h !! l = Some t /\
      (reported "gehwegLinks" (errors r)
       <-> (sidewalkLeftM g <? prop t "sidewalk_min_m")%float = true) /\
      (reported "gehwegRechts" (errors r)
       <-> (sidewalkRightM g <? prop t "sidewalk_min_m")%float = true) /\
      (sidewalkLeftM g = prop t "sidewalk_min_m" ->
       ~ reported "gehwegLinks" (errors r)) /\
      (sidewalkRightM g = prop t "sidewalk_min_m" ->
       ~ reported "gehwegRechts" (errors r))).
Proof.
  intros Hcat Hg Hm.
  destruct (validate_run data standards h0 g Hcat Hg) as (l & h & Hrun & Hown).
  eexists _, h. split; [exact Hrun |].
  rewrite (validateGeometry_checked g _ l standards Hm). cbn [errors rules].
  exists l, (effectiveRules standards).
  split; [reflexivity |]. split; [apply Hown |].
  split; [apply reported_sidewalk_left |].
  split; [apply reported_sidewalk_right |].
  split; intros Heq Hrep.
  - apply reported_sidewalk_left in Hrep.
    rewrite Heq, ltb_irrefl in Hrep. discriminate.
  - apply reported_sidewalk_right in Hrep.
    rewrite Heq, ltb_irrefl in Hrep. discriminate.
Qed.

(** Sidewalks of exactly 1.5 m, the baseline minimum. *)
Lemma sidewalk_violation_iff_below_min_witness :
  returns
    (validateDesignWithStandards (request (Num 12) (Str "1.5") (Num 1.5) (Num 2))
       noStandards)
    module_store
    (fun r h =>
       exists l (t : object), rules r = Some l /\ h !! l = Some t /\
         (reported "gehwegLinks" (errors r)
          <-> (1.5 <? prop t "sidewalk_min_m")%float = true) /\
         (reported "gehwegRechts" (errors r)
          <-> (1.5 <? prop t "sidewalk_min_m")%float = true) /\
         (1.5%float = prop t "sidewalk_min_m" ->
          ~ reported "gehwegLinks" (errors r)) /\
         (1.5%float = prop t "sidewalk_min_m" ->
          ~ reported "gehwegRechts" (errors r))).
Proof.
  apply (sidewalk_violation_iff_below_min
           (request (Num 12) (Str "1.5") (Num 1.5) (Num 2)) noStandards module_store
           {| totalWidthM := 12; sidewalkLeftM := 1.5; sidewalkRightM := 1.5;
              lanesCount := 2; busTraffic := false; cycleNeeded := false;
              cycleType := ""; cycleSides := ""; parkingNeeded := false;
              parkingType := "" |}).
  - repeat split.
  - vm_compute. reflexivity.
  - vm_compute. reflexivity.
Defined.

(** C6: past the mandatory-field check the cycle width in the summary is,
    with the cycle facility requested, the per-side width (cycle_radfahr_min_m
    for a marked lane "radfahrstreifen", cycle_schutz_min_m for a protective
    lane "schutzstreifen", cycle_baulich_min_m for anything else) times 2
    for "beidseitig" and times 1 otherwise; it is 0 when no cycle facility is
    requested. *)
Theorem cycle_width_formula
    (data : Data) (standards : Standards) (h0 : store) (g : Geometry) :
  catalog_ok h0 -> formMapping data = Ret g -> mandatoryErrors g = [] ->
  returns (validateDesignWithStandards data standards) h0 (fun r h =>
    exists l (t : object) s,
      rules r = Some l /\ h !! l = Some t /\ summary r = Some s /\
      sum_cycleTotalM (cycle s) =
        if cycleNeeded g then
          ((if (cycleType g =? "radfahrstreifen")%string
            then prop t "cycle_radfahr_min_m"
            else if (cycleType g =? "schutzstreifen")%string
                 then prop t "cycle_schutz_min_m"
                 else prop t "cycle_baulich_min_m")
           * (if (cycleSides g =? "beidseitig")%string then 2 else 1))%float
        else 0%float).
Proof.
  intros Hcat Hg Hm.
  destruct (validate_run data standards h0 g Hcat Hg) as (l & h & Hrun & Hown).
  eexists _, h. split; [exact Hrun |].
  rewrite (validateGeometry_checked g _ l standards Hm). cbn [summary rules].
  exists l, (effectiveRules standards), (validationSummary g (effectiveRules standards)).
  split; [reflexivity |]. split; [apply Hown |]. split; [reflexivity |].
  cbn [validationSummary cycle sum_cycleTotalM].
  unfold cycleTotalM, cycleWidthPerSide, cycleSidesCount.
  destruct (cycleNeeded g); [| reflexivity].
  destruct (cycleType g =? "schutzstreifen")%string eqn:Es;
    destruct (cycleType g =? "radfahrstreifen")%string eqn:Er; try reflexivity.
  apply String.eqb_eq in Es. apply String.eqb_eq in Er.
  rewrite Es in Er. discriminate.
Qed.

Lemma cycle_width_formula_witness :
  returns (validateDesignWithStandards cycleRequest noStandards) module_store
    (fun r h =>
       exists l (t : object) s,
         rules r = Some l /\ h !! l = Some t /\ summary r = Some s /\
         sum_cycleTotalM (cycle s) = (prop t "cycle_radfahr_min_m" * 2)%float).
Proof.
  apply (cycle_width_formula cycleRequest noStandards module_store
           {| totalWidthM := 20; sidewalkLeftM := 2; sidewalkRightM := 2;
              lanesCount := 2; busTraffic := false; cycleNeeded := true;
              cycleType := "radfahrstreifen"; cycleSides := "beidseitig";
              parkingNeeded := false; parkingType := "" |}).
  - repeat split.
  - vm_compute. reflexivity.
  - vm_compute. reflexivity.
Defined.

Lemma truthy_nonzero (x : float) :
  truthy x = true -> is_zero x = false /\ is_nan x = false.
Proof.
  unfold truthy. destruct (is_zero x), (is_nan x); cbn; auto; discriminate.
Qed.

(** C10: past the mandatory-field check the lane count the approximate lane
    width is divided by is a finite number other than zero, so the guarded
    division takes its regular branch and yields the lane width of the
    summary. *)
Theorem lane_division_defined
    (data : Data) (standards : Standards) (h0 : store) (g : Geometry) :
  catalog_ok h0 -> formMapping data = Ret g -> mandatoryErrors g = [] ->
  returns (validateDesignWithStandards data standards) h0 (fun r h =>
    exists l (t : object) s,
      rules r = Some l /\ h !! l = Some t /\ summary r = Some s /\
      is_zero (sum_lanesCount (lanes s)) = false /\
      is_finite (sum_lanesCount (lanes s)) = true /\
      guarded_div (widthForLanes g t) (sum_lanesCount (lanes s))
      = Some (sum_approxLaneWidth (lanes s))).
Proof.
  intros Hcat Hg Hm.
  destruct (validate_run data standards h0 g Hcat Hg) as (l & h & Hrun & Hown).
  eexists _, h. split; [exact Hrun |].
  rewrite (validateGeometry_checked g _ l standards Hm). cbn [summary rules].
  exists l, (effectiveRules standards), (validationSummary g (effectiveRules standards)).
  split; [reflexivity |]. split; [apply Hown |]. split; [reflexivity |].
  cbn [validationSummary lanes sum_lanesCount sum_approxLaneWidth].
  apply mandatoryErrors_nil in Hm. destruct Hm as (_ & Hlanes & _).
  destruct (truthy_nonzero _ Hlanes) as (Hz & Hn).
  split; [exact Hz |]. split.
  - unfold formMapping in Hg.
    destruct (lowerOrEmpty (radverkehrArt data)); [| discriminate].
    destruct (lowerOrEmpty (radverkehrFuehrung data)); [| discriminate].
    destruct (lowerOrEmpty (parkart data)); [| discriminate].
    injection Hg as <-. cbn [lanesCount]. apply toNumber1_finite.
  - unfold guarded_div. rewrite Hz, Hn. reflexivity.
Qed.

Lemma lane_division_defined_witness :
  returns
    (validateDesignWithStandards (request (Num 10) (Num 2) (Num 2) (Str "2"))
       noStandards)
    module_store
    (fun r h =>
       exists l (t : object) s,
         rules r = Some l /\ h !! l = Some t /\ summary r = Some s /\
         is_zero (sum_lanesCount (lanes s)) = false /\
         is_finite (sum_lanesCount (lanes s)) = true /\
         guarded_div (widthForLanes exampleGeometry t) (sum_lanesCount (lanes s))
         = Some (sum_approxLaneWidth (lanes s))).
Proof.
  apply (lane_division_defined (request (Num 10) (Num 2) (Num 2) (Str "2"))
           noStandards module_store exampleGeometry).
  - repeat split.
  - vm_compute. reflexivity.
  - vm_compute. reflexivity.
Defined.

(** C8 fails on the code: the sidewalk violation inserts the width and the
    minimum as they are, "1" and "1.5", not with two decimals. *)
Theorem sidewalk_message_not_two_decimals :
  returns
    (validateDesignWithStandards (request (Num 10) (Num 1) (Num 2) (Num 2))
       noStandards)
    module_store
    (fun r _ =>
       errors r =
         [{| field := "gehwegLinks";
             message := "Linker Gehweg ist mit 1 m schmaler als die Mindestbreite von 1.5 m." |}]).
Proof.
  eapply returns_mono;
    [apply validate_returns; [apply catalog_ok_module_store | vm_compute; reflexivity] |].
  cbv beta. intros r h (l & -> & _). vm_compute. reflexivity.
Qed.

(** ** Further properties *)

(** The form mapping returns exactly when the three lower-cased fields are
    absent, [null] or strings. *)
Lemma formMapping_returns_iff (data : Data) :
  (exists g, formMapping data = Ret g) <-> textFieldsOk data = true.
Proof.
  unfold formMapping, textFieldsOk, lowerOrEmpty, textual.
  destruct (radverkehrArt data), (radverkehrFuehrung data), (parkart data);
    cbn; split; intros H; try reflexivity; try discriminate;
    try (destruct H as (g & H); discriminate); eexists; reflexivity.
Qed.



(** X2: the validator throws a TypeError, and reports nothing, when one of
    the three lower-cased fields is a number, a boolean, an array or an
    object; no object of the store is changed. *)
Theorem validate_throws_on_non_text_field
    (data : Data) (standards : Standards) (h0 : store) :
  catalog_ok h0 -> textFieldsOk data = false ->
  exists what h,
    validateDesignWithStandards data standards h0 = (Throw (TypeError what), h)
    /\ h0 ⊆ h.
Proof.
  intros Hcat Htext.
  destruct (formMapping data) as [g | [what]] eqn:Hg.
  - assert (textFieldsOk data = true) as Hok
      by (apply formMapping_returns_iff; exists g; exact Hg).
    rewrite Hok in Htext. discriminate.
  - destruct (buildRules_returns standards h0 Hcat) as (l & h & Hrun & Hown).
    exists what, h. split; [| apply Hown].
    unfold validateDesignWithStandards, bind, lift. rewrite Hrun, Hg. reflexivity.
Qed.

Lemma validate_throws_on_non_text_field_witness :
  exists what h,
    validateDesignWithStandards numericCycleType noStandards module_store
    = (Throw (TypeError what), h)
    /\ module_store ⊆ h.
Proof.
  apply (validate_throws_on_non_text_field numericCycleType noStandards module_store).
  - repeat split.
  - reflexivity.
Defined.

(** A worked example, the second one of the specification: 10 m in all,
    sidewalks of 2 m and three lanes need 12.25 m; the validator rejects the design and the
    aggregate-width violation cites "12.25" and "10.00". *)
Theorem three_lanes_example :
  returns
    (validateDesignWithStandards (request (Num 10) (Num 2) (Num 2) (Num 3))
       noStandards)
    module_store
    (fun r _ =>
       ok r = false /\
       errors r =
         [{| field := "gesamtbreite";
             message := "Die gewünschte Aufteilung benötigt mindestens 12.25 m, verfügbar sind aber nur 10.00 m." |};
          {| field := "fahrstreifen";
             message := "Die voraussichtliche Fahrstreifenbreite liegt mit ca. 2.00 m unter der Mindestbreite von 2.75 m." |}]).
Proof.
  eapply returns_mono;
    [apply validate_returns; [apply catalog_ok_module_store | vm_compute; reflexivity] |].
  cbv beta. intros r h (l & -> & _). vm_compute. split; reflexivity.
Qed.

(** ** More on the rule merger *)

(** [x < y] and [y <= z] give [x < z]. *)
Lemma SFltb_leb_trans x y z :
  SFltb x y = true -> SFleb y z = true -> SFltb x z = true.
Proof.
  unfold SFltb, SFleb.
  destruct x as [sx|sx| |sx mx ex], y as [sy|sy| |sy my ey],
    z as [sz|sz| |sz mz ez];
    cbn; try discriminate; try reflexivity;
    repeat match goal with s : bool |- _ => destruct s end;
    cbn; try discriminate; try reflexivity.
  all: change (PosDef.Pos.compare_cont Eq ?a ?b) with (Pos.compare a b).
  all: repeat match goal with
       | |- context [Z.compare ?a ?b] => destruct (Z.compare_spec a b)
       | |- context [Pos.compare ?a ?b] => destruct (Pos.compare_spec a b)
       end; cbn; try discriminate; try reflexivity; intros; try lia.
Qed.

Lemma ltb_leb_trans (x y z : float) :
  (x <? y)%float = true -> (y <=? z)%float = true -> (x <? z)%float = true.
Proof. rewrite !ltb_spec, leb_spec. apply SFltb_leb_trans. Qed.

(** The effective table in closed form. *)
Lemma effectiveRules_closed_form (standards : Standards) :
  effectiveRules standards
  = <["sidewalk_min_m" :=
        if applyRast standards || applyEfa standards then 1.8%float else 1.5%float]>
      (<["sidewalk_target_m" :=
           if applyEfa standards then 2.5%float else 1.8%float]>
         (ERA_RULES_literal ∪ BASE_RULES_literal)).
Proof. destruct standards as [[] [] [] []]; by_evaluation. Qed.

(** X4: what selecting standards changes. The table [buildRules] returns is
    the baseline table with the three cycle keys added (1.5, 1.85 and 2.0),
    sidewalk_min_m raised from 1.5 to 1.8 when RASt or EFA is selected, and
    sidewalk_target_m raised from 1.8 to 2.5 when EFA is selected. No other
    value differs from the baseline and no other key exists. *)
Theorem buildRules_closed_form (standards : Standards) (h0 : store) :
  catalog_ok h0 ->
  returns (buildRules standards) h0 (fun l h =>
    h !! l
    = Some (<["sidewalk_min_m" :=
                if applyRast standards || applyEfa standards
                then 1.8%float else 1.5%float]>
              (<["sidewalk_target_m" :=
                   if applyEfa standards then 2.5%float else 1.8%float]>
                 (ERA_RULES_literal ∪ BASE_RULES_literal)))).
Proof.
  intros Hcat.
  eapply returns_mono; [apply buildRules_returns, Hcat |].
  cbv beta. intros l h (_ & _ & Hl).
  rewrite Hl. f_equal. apply effectiveRules_closed_form.
Qed.

Lemma buildRules_closed_form_witness :
  returns (buildRules allStandards) module_store (fun l h =>
    h !! l
    = Some (<["sidewalk_min_m" := 1.8%float]>
              (<["sidewalk_target_m" := 2.5%float]>
                 (ERA_RULES_literal ∪ BASE_RULES_literal)))).
Proof.
  apply (buildRules_closed_form allStandards module_store).
  repeat split.
Defined.

Lemma effectiveRules_monotone (s s' : Standards) :
  selectedAlso s s' = true ->
  map_Forall
    (fun k v => Is_true (from_option (fun v' => (v <=? v')%float) false
                           (effectiveRules s' !! k)))
    (effectiveRules s).
Proof.
  intros Hsel.
  destruct s as [[] [] [] []], s' as [[] [] [] []]; try discriminate Hsel;
    refine (@bool_decide_unpack _ (map_Forall_dec _ _) _); vm_compute; exact I.
Qed.

(** X5: selecting more standards never lowers a requirement. When every
    standard selected in [s] is also selected in [s'], each key of the table
    for [s] is a key of the table for [s'] with a value at least as large. *)
Theorem more_standards_never_lower (s s' : Standards) (h0 : store) :
  catalog_ok h0 -> selectedAlso s s' = true ->
  returns (buildRules s) h0 (fun l h =>
    returns (buildRules s') h0 (fun l' h' =>
      exists t t' : object, h !! l = Some t /\ h' !! l' = Some t' /\
        forall k v, t !! k = Some v ->
          exists v', t' !! k = Some v' /\ (v <=? v')%float = true)).
Proof.
  intros Hcat Hsel.
  eapply returns_mono; [apply buildRules_returns, Hcat |].
  cbv beta. intros l h (_ & _ & Hl).
  eapply returns_mono; [apply buildRules_returns, Hcat |].
  cbv beta. intros l' h' (_ & _ & Hl').
  exists (effectiveRules s), (effectiveRules s').
  split; [exact Hl |]. split; [exact Hl' |].
  intros k v Hk.
  pose proof (effectiveRules_monotone s s' Hsel k v Hk) as Hm. cbv beta in Hm.
  destruct (effectiveRules s' !! k) as [v' |]; [| destruct Hm].
  exists v'. split; [reflexivity | apply Is_true_true, Hm].
Qed.

Lemma more_standards_never_lower_witness :
  returns (buildRules noStandards) module_store (fun l h =>
    returns (buildRules allStandards) module_store (fun l' h' =>
      exists t t' : object, h !! l = Some t /\ h' !! l' = Some t' /\
        forall k v, t !! k = Some v ->
          exists v', t' !! k = Some v' /\ (v <=? v')%float = true)).
Proof.
  apply (more_standards_never_lower noStandards allStandards module_store).
  - repeat split.
  - reflexivity.
Defined.

(** ** More on the validator *)

(** The violations depend on the cycle and parking fields through the two
    widths only. *)
Lemma violations_by_widths (g g' : Geometry) (R : object) :
  totalWidthM g' = totalWidthM g -> sidewalkLeftM g' = sidewalkLeftM g ->
  sidewalkRightM g' = sidewalkRightM g -> lanesCount g' = lanesCount g ->
  busTraffic g' = busTraffic g ->
  cycleTotalM g' R = cycleTotalM g R -> parkingM g' R = parkingM g R ->
  mandatoryErrors g' = mandatoryErrors g /\
  laneErrors g' R (requiredErrors g' R (sidewalkErrors g' R []))
  = laneErrors g R (requiredErrors g R (sidewalkErrors g R [])).
Proof.
  intros Ht Hl Hr Hn Hb Hc Hp.
  unfold mandatoryErrors, laneErrors, requiredErrors, sidewalkErrors,
    approxLaneWidth, widthForLanes, requiredMin, lanesMin, sidewalkTotalM.
  rewrite Ht, Hl, Hr, Hn, Hb, Hc, Hp. split; reflexivity.
Qed.

Lemma same_verdict_by_widths (g g' : Geometry) (R : object) l l' standards :
  totalWidthM g' = totalWidthM g -> sidewalkLeftM g' = sidewalkLeftM g ->
  sidewalkRightM g' = sidewalkRightM g -> lanesCount g' = lanesCount g ->
  busTraffic g' = busTraffic g ->
  cycleTotalM g' R = cycleTotalM g R -> parkingM g' R = parkingM g R ->
  ok (validateGeometry g' R l' standards) = ok (validateGeometry g R l standards) /\
  errors (validateGeometry g' R l' standards)
  = errors (validateGeometry g R l standards).
Proof.
  intros Ht Hl Hr Hn Hb Hc Hp.
  destruct (violations_by_widths g g' R Ht Hl Hr Hn Hb Hc Hp) as (Hm & He).
  unfold validateGeometry. rewrite Hm.
  destruct (mandatoryErrors g) as [| e es]; cbn [length Nat.ltb Nat.leb ok errors];
    [| split; reflexivity].
  rewrite He. split; reflexivity.
Qed.

(** X6: the cycle type and the cycle guidance count only when a cycle
    facility is requested: two requests that differ in these two fields
    alone, with no cycle facility requested, get the same verdict and the
    same violations. *)
Theorem cycle_details_ignored_unless_requested
    (data data' : Data) (standards : Standards) (h0 : store) (g : Geometry)
    (ty sides : string) :
  catalog_ok h0 -> formMapping data = Ret g ->
  formMapping data' = Ret (withCycleDetails ty sides g) ->
  cycleNeeded g = false ->
  returns (validateDesignWithStandards data standards) h0 (fun r _ =>
    returns (validateDesignWithStandards data' standards) h0 (fun r' _ =>
      ok r' = ok r /\ errors r' = errors r)).
Proof.
  intros Hcat Hg Hg' Hno.
  eapply returns_mono; [apply (validate_returns _ _ _ _ Hcat Hg) |].
  cbv beta. intros r h (l & -> & _).
  eapply returns_mono; [apply (validate_returns _ _ _ _ Hcat Hg') |].
  cbv beta. intros r' h' (l' & -> & _).
  apply same_verdict_by_widths; try reflexivity.
  unfold cycleTotalM, cycleWidthPerSide, cycleSidesCount. cbn [withCycleDetails cycleNeeded].
  rewrite Hno. reflexivity.
Qed.

Lemma cycle_details_ignored_unless_requested_witness :
  returns (validateDesignWithStandards (request (Num 12) (Num 2) (Num 2) (Num 2)) noStandards)
    module_store (fun r _ =>
    returns (validateDesignWithStandards idleCycleRequest noStandards)
      module_store (fun r' _ => ok r' = ok r /\ errors r' = errors r)).
Proof.
  apply (cycle_details_ignored_unless_requested
           (request (Num 12) (Num 2) (Num 2) (Num 2)) idleCycleRequest
           noStandards module_store
           {| totalWidthM := 12; sidewalkLeftM := 2; sidewalkRightM := 2;
              lanesCount := 2; busTraffic := false; cycleNeeded := false;
              cycleType := ""; cycleSides := ""; parkingNeeded := false;
              parkingType := "" |}
           "schutzstreifen" "beidseitig").
  - repeat split.
  - vm_compute. reflexivity.
  - vm_compute. reflexivity.
  - reflexivity.
Defined.

(** X7: parking adds width only when it is requested with one of the types
    "parallel", "schraeg" and "quer": a request without parking, or with
    parking of any other type, gets the same verdict and the same violations
    as the request that differs from it in having no parking requested. *)
Theorem unknown_parking_counts_as_none
    (data data' : Data) (standards : Standards) (h0 : store) (g : Geometry)
    (ty' : string) :
  catalog_ok h0 -> formMapping data = Ret g ->
  formMapping data' = Ret (withParking false ty' g) ->
  parkingNeeded g = false \/
  (parkingType g <> "parallel" /\ parkingType g <> "schraeg"
   /\ parkingType g <> "quer") ->
  returns (validateDesignWithStandards data standards) h0 (fun r _ =>
    returns (validateDesignWithStandards data' standards) h0 (fun r' _ =>
      ok r' = ok r /\ errors r' = errors r)).
Proof.
  intros Hcat Hg Hg' Hty.
  eapply returns_mono; [apply (validate_returns _ _ _ _ Hcat Hg) |].
  cbv beta. intros r h (l & -> & _).
  eapply returns_mono; [apply (validate_returns _ _ _ _ Hcat Hg') |].
  cbv beta. intros r' h' (l' & -> & _).
  apply same_verdict_by_widths; try reflexivity.
  unfold parkingM. cbn [withParking parkingNeeded].
  destruct Hty as [-> | (Hp & Hs & Hq)]; [reflexivity |].
  destruct (parkingNeeded g); [| reflexivity].
  apply String.eqb_neq in Hp, Hs, Hq. rewrite Hp, Hs, Hq. reflexivity.
Qed.

Lemma unknown_parking_counts_as_none_witness :
  returns (validateDesignWithStandards unknownParkingRequest noStandards)
    module_store (fun r _ =>
    returns (validateDesignWithStandards (request (Num 12) (Num 2) (Num 2) (Num 2))
               noStandards)
      module_store (fun r' _ => ok r' = ok r /\ errors r' = errors r)).
Proof.
  apply (unknown_parking_counts_as_none
           unknownParkingRequest (request (Num 12) (Num 2) (Num 2) (Num 2))
           noStandards module_store
           {| totalWidthM := 12; sidewalkLeftM := 2; sidewalkRightM := 2;
              lanesCount := 2; busTraffic := false; cycleNeeded := false;
              cycleType := ""; cycleSides := ""; parkingNeeded := true;
              parkingType := "laengs" |}
           "").
  - repeat split.
  - vm_compute. reflexivity.
  - vm_compute. reflexivity.
  - right. repeat split; discriminate.
Defined.

(** X8: the violations come in a fixed order. When a mandatory field is
    missing the field tags form a non-empty subsequence of total width, lane
    count, left sidewalk, right sidewalk and there is no summary; otherwise
    they form a subsequence of left sidewalk, right sidewalk, total width,
    lane width, bus advisory (the last two both tagged "fahrstreifen"). *)
Theorem violations_in_fixed_order
    (data : Data) (standards : Standards) (h0 : store) (g : Geometry) :
  catalog_ok h0 -> formMapping data = Ret g ->
  returns (validateDesignWithStandards data standards) h0 (fun r _ =>
    (summary r = None /\ errors r <> [] /\
     sublist (List.map field (errors r)) mandatoryOrder)
    \/ (summary r <> None /\ mandatoryErrors g = [] /\
        sublist (List.map field (errors r)) checkOrder)).
Proof.
  intros Hcat Hg.
  eapply returns_mono; [apply (validate_returns _ _ _ _ Hcat Hg) |].
  cbv beta. intros r h (l & -> & _).
  destruct (mandatoryErrors g) as [| e es] eqn:Hm.
  - right. rewrite (validateGeometry_checked g _ l standards Hm).
    cbn [summary errors]. split; [discriminate |]. split; [reflexivity |].
    unfold laneErrors, requiredErrors, sidewalkErrors, addError, checkOrder.
    set (R := effectiveRules standards).
    destruct (sidewalkLeftM g <? prop R "sidewalk_min_m")%float;
      destruct (sidewalkRightM g <? prop R "sidewalk_min_m")%float;
      destruct (totalWidthM g <? requiredMin g R)%float;
      destruct (approxLaneWidth g R <? prop R "lane_min_m")%float;
      destruct (busTraffic g && (approxLaneWidth g R <? prop R "lane_regular_m")%float);
      cbn [app List.map field]; repeat constructor.
  - left. unfold validateGeometry. rewrite Hm. cbn [length Nat.ltb Nat.leb summary errors].
    split; [reflexivity |]. split; [discriminate |].
    rewrite <- Hm, mandatoryErrors_missing. unfold missing, mandatoryOrder.
    destruct (truthy (totalWidthM g)), (truthy (lanesCount g)),
      (truthy (sidewalkLeftM g)), (truthy (sidewalkRightM g));
      cbn [app List.map field missingTotalWidth missingLaneCount
             missingSidewalkLeft missingSidewalkRight];
      repeat constructor.
Qed.

Lemma violations_in_fixed_order_witness :
  returns (validateDesignWithStandards busRequest noStandards) module_store
    (fun r _ =>
       (summary r = None /\ errors r <> [] /\
        sublist (List.map field (errors r)) mandatoryOrder)
       \/ (summary r <> None /\ mandatoryErrors busGeometry = [] /\
           sublist (List.map field (errors r)) checkOrder)).
Proof.
  apply (violations_in_fixed_order busRequest noStandards module_store busGeometry).
  - repeat split.
  - vm_compute. reflexivity.
Defined.

Lemma reported_total_width (g : Geometry) (R : object) :
  reported "gesamtbreite" (laneErrors g R (requiredErrors g R (sidewalkErrors g R [])))
  <-> (totalWidthM g <? requiredMin g R)%float = true.
Proof.
  unfold reported, laneErrors, requiredErrors, sidewalkErrors, addError.
  destruct (sidewalkLeftM g <? prop R "sidewalk_min_m")%float;
    destruct (sidewalkRightM g <? prop R "sidewalk_min_m")%float;
    destruct (totalWidthM g <? requiredMin g R)%float;
    destruct (approxLaneWidth g R <? prop R "lane_min_m")%float;
    destruct (busTraffic g && (approxLaneWidth g R <? prop R "lane_regular_m")%float);
    cbn [app]; (split; [intros (e & He & Hf) | intros H]);
    try reflexivity; try discriminate;
    try (eexists; split; [left; reflexivity | reflexivity]);
    try (eexists; split; [right; left; reflexivity | reflexivity]);
    try (eexists; split; [right; right; left; reflexivity | reflexivity]);
    cbn [In] in He;
    repeat (destruct He as [<- | He]; [cbn in Hf; discriminate |]);
    destruct He.
Qed.

Lemma reported_lane_width (g : Geometry) (R : object) :
  reported "fahrstreifen" (laneErrors g R (requiredErrors g R (sidewalkErrors g R [])))
  <-> (approxLaneWidth g R <? prop R "lane_min_m")%float = true
      \/ busTraffic g && (approxLaneWidth g R <? prop R "lane_regular_m")%float = true.
Proof.
  unfold reported, laneErrors, requiredErrors, sidewalkErrors, addError.
  destruct (sidewalkLeftM g <? prop R "sidewalk_min_m")%float;
    destruct (sidewalkRightM g <? prop R "sidewalk_min_m")%float;
    destruct (totalWidthM g <? requiredMin g R)%float;
    destruct (approxLaneWidth g R <? prop R "lane_min_m")%float;
    destruct (busTraffic g && (approxLaneWidth g R <? prop R "lane_regular_m")%float);
    cbn [app]; (split; [intros (e & He & Hf) | intros H]);
    try (left; reflexivity); try (right; reflexivity);
    try (destruct H; discriminate);
    try (eexists; split; [left; reflexivity | reflexivity]);
    try (eexists; split; [right; left; reflexivity | reflexivity]);
    try (eexists; split; [right; right; left; reflexivity | reflexivity]);
    try (eexists; split; [right; right; right; left; reflexivity | reflexivity]);
    cbn [In] in He;
    repeat (destruct He as [<- | He]; [cbn in Hf; discriminate |]);
    destruct He.
Qed.

Lemma no_violation_iff (g : Geometry) (R : object) :
  laneErrors g R (requiredErrors g R (sidewalkErrors g R [])) = [] <->
  (sidewalkLeftM g <? prop R "sidewalk_min_m")%float = false /\
  (sidewalkRightM g <? prop R "sidewalk_min_m")%float = false /\
  (totalWidthM g <? requiredMin g R)%float = false /\
  (approxLaneWidth g R <? prop R "lane_min_m")%float = false /\
  busTraffic g && (approxLaneWidth g R <? prop R "lane_regular_m")%float = false.
Proof.
  unfold laneErrors, requiredErrors, sidewalkErrors, addError.
  destruct (sidewalkLeftM g <? prop R "sidewalk_min_m")%float;
    destruct (sidewalkRightM g <? prop R "sidewalk_min_m")%float;
    destruct (totalWidthM g <? requiredMin g R)%float;
    destruct (approxLaneWidth g R <? prop R "lane_min_m")%float;
    destruct (busTraffic g && (approxLaneWidth g R <? prop R "lane_regular_m")%float);
    cbn [app]; split; intros H; try discriminate; try (repeat split; reflexivity);
    destruct H as (? & ? & ? & ? & ?); discriminate.
Qed.

(** X9: the acceptance criterion. A request that passes the mandatory-field
    check is accepted (ok = true, no violation) exactly when none of the five
    checks fires: neither sidewalk is below sidewalk_min_m, the total width
    is not below the required minimum, the approximate lane width is not
    below lane_min_m and, with bus traffic, not below lane_regular_m. The
    numbers compared are those of the returned summary and rules. *)
Theorem accepted_iff_no_check_fires
    (data : Data) (standards : Standards) (h0 : store) (g : Geometry) :
  catalog_ok h0 -> formMapping data = Ret g -> mandatoryErrors g = [] ->
  returns (validateDesignWithStandards data standards) h0 (fun r h =>
    exists l (t : object) s,
      rules r = Some l /\ h !! l = Some t /\ summary r = Some s /\
      (ok r = true <-> errors r = []) /\
      (ok r = true <->
       (sum_sidewalkLeftM (sidewalks s) <? prop t "sidewalk_min_m")%float = false /\
       (sum_sidewalkRightM (sidewalks s) <? prop t "sidewalk_min_m")%float = false /\
       (sum_totalWidthM s <? sum_requiredMin s)%float = false /\
       (sum_approxLaneWidth (lanes s) <? prop t "lane_min_m")%float = false /\
       busTraffic g
       && (sum_approxLaneWidth (lanes s) <? prop t "lane_regular_m")%float = false)).
Proof.
  intros Hcat Hg Hm.
  eapply returns_mono; [apply (validate_returns _ _ _ _ Hcat Hg) |].
  cbv beta. intros r h (l & -> & Hl).
  rewrite (validateGeometry_checked g _ l standards Hm). cbn [ok errors summary rules].
  exists l, (effectiveRules standards), (validationSummary g (effectiveRules standards)).
  split; [reflexivity |]. split; [exact Hl |]. split; [reflexivity |].
  cbn [validationSummary sidewalks lanes sum_sidewalkLeftM sum_sidewalkRightM
         sum_totalWidthM sum_requiredMin sum_approxLaneWidth].
  assert (Hlen : forall errs : list Error, (length errs =? 0)%nat = true <-> errs = []).
  { intros [| e errs]; cbn; split; intros H; try reflexivity; discriminate. }
  split; [apply Hlen |].
  rewrite Hlen. apply no_violation_iff.
Qed.

Lemma accepted_iff_no_check_fires_witness :
  returns
    (validateDesignWithStandards (request (Num 10) (Num 2) (Num 2) (Num 2))
       noStandards)
    module_store
    (fun r h =>
       exists l (t : object) s,
         rules r = Some l /\ h !! l = Some t /\ summary r = Some s /\
         (ok r = true <-> errors r = []) /\
         (ok r = true <->
          (sum_sidewalkLeftM (sidewalks s) <? prop t "sidewalk_min_m")%float = false /\
          (sum_sidewalkRightM (sidewalks s) <? prop t "sidewalk_min_m")%float = false /\
          (sum_totalWidthM s <? sum_requiredMin s)%float = false /\
          (sum_approxLaneWidth (lanes s) <? prop t "lane_min_m")%float = false /\
          false
          && (sum_approxLaneWidth (lanes s) <? prop t "lane_regular_m")%float = false)).
Proof.
  apply (accepted_iff_no_check_fires (request (Num 10) (Num 2) (Num 2) (Num 2))
           noStandards module_store exampleGeometry).
  - repeat split.
  - vm_compute. reflexivity.
  - vm_compute. reflexivity.
Defined.

(** X10: past the mandatory-field check the aggregate-width violation
    (tagged "gesamtbreite") is reported exactly when the summary's total
    width is below its required minimum, and a violation tagged
    "fahrstreifen" exactly when the summary's lane width is below lane_min_m
    or, with bus traffic, below lane_regular_m; the required minimum and the
    lane width of the summary are the sums and the quotient of the widths the
    summary lists. *)
Theorem violations_explained_by_summary
    (data : Data) (standards : Standards) (h0 : store) (g : Geometry) :
  catalog_ok h0 -> formMapping data = Ret g -> mandatoryErrors g = [] ->
  returns (validateDesignWithStandards data standards) h0 (fun r h =>
    exists l (t : object) s,
      rules r = Some l /\ h !! l = Some t /\ summary r = Some s /\
      sum_requiredMin s
      = (sum_sidewalkLeftM (sidewalks s) + sum_sidewalkRightM (sidewalks s)
         + sum_cycleTotalM (cycle s) + sum_parkingM (parking s)
         + sum_lanesCount (lanes s) * prop t "lane_min_m")%float /\
      sum_approxLaneWidth (lanes s)
      = ((sum_totalWidthM s
          - (sum_sidewalkLeftM (sidewalks s) + sum_sidewalkRightM (sidewalks s)
             + sum_cycleTotalM (cycle s) + sum_parkingM (parking s)))
         / sum_lanesCount (lanes s))%float /\
      (reported "gesamtbreite" (errors r)
       <-> (sum_totalWidthM s <? sum_requiredMin s)%float = true) /\
      (reported "fahrstreifen" (errors r)
       <-> (sum_approxLaneWidth (lanes s) <? prop t "lane_min_m")%float = true
           \/ busTraffic g
              && (sum_approxLaneWidth (lanes s) <? prop t "lane_regular_m")%float
              = true)).
Proof.
  intros Hcat Hg Hm.
  eapply returns_mono; [apply (validate_returns _ _ _ _ Hcat Hg) |].
  cbv beta. intros r h (l & -> & Hl).
  rewrite (validateGeometry_checked g _ l standards Hm). cbn [errors summary rules].
  exists l, (effectiveRules standards), (validationSummary g (effectiveRules standards)).
  split; [reflexivity |]. split; [exact Hl |]. split; [reflexivity |].
  cbn [validationSummary sidewalks cycle parking lanes sum_sidewalkLeftM
         sum_sidewalkRightM sum_cycleTotalM sum_parkingM sum_lanesCount
         sum_totalWidthM sum_requiredMin sum_approxLaneWidth].
  split; [reflexivity |]. split; [reflexivity |].
  split; [apply reported_total_width | apply reported_lane_width].
Qed.

Lemma violations_explained_by_summary_witness :
  returns (validateDesignWithStandards busRequest noStandards) module_store
    (fun r h =>
       exists l (t : object) s,
         rules r = Some l /\ h !! l = Some t /\ summary r = Some s /\
         sum_requiredMin s
         = (sum_sidewalkLeftM (sidewalks s) + sum_sidewalkRightM (sidewalks s)
            + sum_cycleTotalM (cycle s) + sum_parkingM (parking s)
            + sum_lanesCount (lanes s) * prop t "lane_min_m")%float /\
         sum_approxLaneWidth (lanes s)
         = ((sum_totalWidthM s
             - (sum_sidewalkLeftM (sidewalks s) + sum_sidewalkRightM (sidewalks s)
                + sum_cycleTotalM (cycle s) + sum_parkingM (parking s)))
            / sum_lanesCount (lanes s))%float /\
         (reported "gesamtbreite" (errors r)
          <-> (sum_totalWidthM s <? sum_requiredMin s)%float = true) /\
         (reported "fahrstreifen" (errors r)
          <-> (sum_approxLaneWidth (lanes s) <? prop t "lane_min_m")%float = true
              \/ true
                 && (sum_approxLaneWidth (lanes s) <? prop t "lane_regular_m")%float
                 = true)).
Proof.
  apply (violations_explained_by_summary busRequest noStandards module_store busGeometry).
  - repeat split.
  - vm_compute. reflexivity.
  - vm_compute. reflexivity.
Defined.

Lemma lane_min_le_regular (standards : Standards) :
  (prop (effectiveRules standards) "lane_min_m"
     <=? prop (effectiveRules standards) "lane_regular_m")%float = true.
Proof. destruct standards as [[] [] [] []]; vm_compute; reflexivity. Qed.

(** X11: with bus traffic a lane-width violation never comes alone: when the
    approximate lane width is below lane_min_m and bus traffic is flagged,
    the violation list ends with the lane-width violation followed by the bus
    advisory, because lane_min_m is at most lane_regular_m in every effective
    table. *)
Theorem bus_advisory_follows_lane_violation
    (data : Data) (standards : Standards) (h0 : store) (g : Geometry) :
  catalog_ok h0 -> formMapping data = Ret g -> mandatoryErrors g = [] ->
  busTraffic g = true ->
  (approxLaneWidth g (effectiveRules standards)
     <? prop (effectiveRules standards) "lane_min_m")%float = true ->
  returns (validateDesignWithStandards data standards) h0 (fun r h =>
    exists l (t : object) pre m,
      rules r = Some l /\ h !! l = Some t /\
      errors r = (pre ++ [{| field := "fahrstreifen"; message := m |};
                          busAdvisory t])%list).
Proof.
  intros Hcat Hg Hm Hbus Hlane.
  eapply returns_mono; [apply (validate_returns _ _ _ _ Hcat Hg) |].
  cbv beta. intros r h (l & -> & Hl).
  rewrite (validateGeometry_checked g _ l standards Hm). cbn [errors rules].
  exists l, (effectiveRules standards).
  pose proof (ltb_leb_trans _ _ _ Hlane (lane_min_le_regular standards)) as Hreg.
  unfold laneErrors, addError. rewrite Hlane, Hbus, Hreg. cbn [andb].
  eexists _, _. split; [reflexivity |]. split; [exact Hl |].
  rewrite <- app_assoc. reflexivity.
Qed.

Lemma bus_advisory_follows_lane_violation_witness :
  returns (validateDesignWithStandards busRequest noStandards) module_store
    (fun r h =>
       exists l (t : object) pre m,
         rules r = Some l /\ h !! l = Some t /\
         errors r = (pre ++ [{| field := "fahrstreifen"; message := m |};
                             busAdvisory t])%list).
Proof.
  apply (bus_advisory_follows_lane_violation busRequest noStandards module_store
           busGeometry).
  - repeat split.
  - vm_compute. reflexivity.
  - vm_compute. reflexivity.
  - reflexivity.
  - vm_compute. reflexivity.
Defined.

(** ** The route *)

Lemma effectiveRules_by_rast_efa (s s' : Standards) :
  applyRast s' = applyRast s -> applyEfa s' = applyEfa s ->
  effectiveRules s' = effectiveRules s.
Proof.
  intros Hr He. rewrite !effectiveRules_closed_form, Hr, He. reflexivity.
Qed.

(** The verdict, the violations and the summary do not depend on the
    reference of the rules and on the selection passed along. *)
Lemma validateGeometry_sent_fields (g : Geometry) (R : object) l l' st st' :
  ok (validateGeometry g R l' st') = ok (validateGeometry g R l st) /\
  errors (validateGeometry g R l' st') = errors (validateGeometry g R l st) /\
  summary (validateGeometry g R l' st') = summary (validateGeometry g R l st).
Proof.
  unfold validateGeometry.
  destruct (0 <? length (mandatoryErrors g))%nat; repeat split; reflexivity.
Qed.





(** X13: the response does not depend on the era and stvo flags of the
    request: two bodies with the same form fields and the same rast and efa
    flags get the same response, status, message, violations and summary
    alike. *)
Theorem response_ignores_era_and_stvo (body body' : Body) (h0 : store) :
  catalog_ok h0 -> textFieldsOk (form body) = true ->
  form body' = form body -> rast body' = rast body -> efa body' = efa body ->
  returns (snd (postVerkehrsplanung body)) h0 (fun resp _ =>
    returns (snd (postVerkehrsplanung body')) h0 (fun resp' _ => resp' = resp)).
Proof.
  intros Hcat Htext Hform Hrast Hefa.
  apply formMapping_returns_iff in Htext. destruct Htext as (g & Hg).
  unfold postVerkehrsplanung. cbn [snd]. rewrite Hform, Hrast, Hefa.
  eapply returns_bind; [apply (validate_returns _ _ _ _ Hcat Hg) |].
  cbv beta. intros r h (l & -> & _).
  set (st := {| applyRast := toBool (rast body); applyEra := toBool (era body);
                applyEfa := toBool (efa body); applyStvo := toBool (stvo body) |}).
  set (st' := {| applyRast := toBool (rast body); applyEra := toBool (era body');
                 applyEfa := toBool (efa body); applyStvo := toBool (stvo body') |}).
  assert (HR : effectiveRules st' = effectiveRules st)
    by (apply effectiveRules_by_rast_efa; reflexivity).
  assert (Hresp : forall r1 : Result,
            returns
              (if negb (ok r1)
               then ret {| httpStatus := 400; status := "error";
                           responseMessage :=
                             "Die Anfrage erfüllt nicht die Anforderungen der gewählten Richtlinien.";
                           responseErrors := Some (errors r1);
                           responseSummary := summary r1 |}
               else ret {| httpStatus := 200; status := "ok";
                           responseMessage := "Alle ausgewählten Richtlinien erfüllt.";
                           responseErrors := None;
                           responseSummary := summary r1 |})
              h
              (fun resp _ =>
                 resp = if negb (ok r1)
                        then {| httpStatus := 400; status := "error";
                                responseMessage :=
                                  "Die Anfrage erfüllt nicht die Anforderungen der gewählten Richtlinien.";
                                responseErrors := Some (errors r1);
                                responseSummary := summary r1 |}
                        else {| httpStatus := 200; status := "ok";
                                responseMessage := "Alle ausgewählten Richtlinien erfüllt.";
                                responseErrors := None;
                                responseSummary := summary r1 |})).
  { intros r1. destruct (negb (ok r1)); apply returns_ret; reflexivity. }
  eapply returns_mono; [apply Hresp |].
  cbv beta. intros resp _ ->.
  eapply returns_bind; [apply (validate_returns _ _ _ _ Hcat Hg) |].
  cbv beta. intros r' h' (l' & -> & _).
  fold st'. rewrite HR.
  destruct (validateGeometry_sent_fields g (effectiveRules st) l l' st st')
    as (Hok & Herr & Hsum).
  rewrite Hok, Herr, Hsum.
  destruct (negb (ok (validateGeometry g (effectiveRules st) l st)));
    apply returns_ret; reflexivity.
Qed.

Lemma response_ignores_era_and_stvo_witness :
  returns
    (snd (postVerkehrsplanung (bodyOf busRequest (Str "ja") undefined undefined undefined)))
    module_store (fun resp _ =>
    returns
      (snd (postVerkehrsplanung
              (bodyOf busRequest (Str "ja") (Str "ja") undefined (Bool true))))
      module_store (fun resp' _ => resp' = resp)).
Proof.
  apply (response_ignores_era_and_stvo
           (bodyOf busRequest (Str "ja") undefined undefined undefined)
           (bodyOf busRequest (Str "ja") (Str "ja") undefined (Bool true))
           module_store).
  - repeat split.
  - reflexivity.
  - reflexivity.
  - reflexivity.
  - reflexivity.
Defined.

(** ** The two validators of index.js *)

(** The numbers of the form mapping are finite. *)
Lemma formMapping_finite (data : Data) (g : Geometry) :
  formMapping data = Ret g ->
  is_finite (totalWidthM g) = true /\ is_finite (sidewalkLeftM g) = true /\
  is_finite (sidewalkRightM g) = true /\ is_finite (lanesCount g) = true.
Proof.
  unfold formMapping. intros Hg.
  destruct (lowerOrEmpty (radverkehrArt data)); [| discriminate].
  destruct (lowerOrEmpty (radverkehrFuehrung data)); [| discriminate].
  destruct (lowerOrEmpty (parkart data)); [| discriminate].
  injection Hg as <-. cbn. repeat split; apply toNumber1_finite.
Qed.

(** A zero is below every positive finite number. *)
Lemma zero_ltb_positive (x c : float) m e :
  is_zero x = true -> Prim2SF c = S754_finite false m e -> (x <? c)%float = true.
Proof.
  unfold is_zero. rewrite FloatAxioms.eqb_spec, FloatAxioms.ltb_spec.
  intros Hz Hc. rewrite Hc.
  replace (Prim2SF PrimFloat.zero) with (S754_zero false) in Hz
    by (vm_compute; reflexivity).
  destruct (Prim2SF x) as [sx | sx | | sx mx ex]; cbn in Hz |- *;
    try discriminate; try reflexivity; destruct sx; discriminate.
Qed.

Lemma falsy_below_sidewalk_min (x : float) (standards : Standards) :
  truthy x = false -> is_finite x = true ->
  (x <? prop (effectiveRules standards) "sidewalk_min_m")%float = true.
Proof.
  intros Hfalsy Hfin.
  assert (Hz : is_zero x = true).
  { unfold truthy in Hfalsy. unfold is_finite in Hfin.
    destruct (is_zero x); [reflexivity |].
    destruct (is_nan x); cbn in *; discriminate. }
  rewrite effectiveRules_closed_form. unfold prop. rewrite lookup_insert_eq.
  cbn [default from_option].
  destruct (applyRast standards || applyEfa standards);
    (eapply zero_ltb_positive; [exact Hz | vm_compute; reflexivity]).
Qed.

Lemma plain_cycleTotalM (g : Geometry) (R : object) :
  Plain.cycleTotalM g R = cycleTotalM g R.
Proof.
  unfold Plain.cycleTotalM, Plain.cycleSidesCount, cycleTotalM, cycleSidesCount.
  destruct (cycleNeeded g); reflexivity.
Qed.

Lemma plain_requiredMin (g : Geometry) (R : object) :
  Plain.requiredMin g R = requiredMin g R.
Proof. unfold Plain.requiredMin, requiredMin. rewrite plain_cycleTotalM. reflexivity. Qed.

Lemma plain_approxLaneWidth (g : Geometry) (R : object) :
  Plain.approxLaneWidth g R = approxLaneWidth g R.
Proof.
  unfold Plain.approxLaneWidth, Plain.widthForLanes, approxLaneWidth, widthForLanes.
  rewrite plain_cycleTotalM. reflexivity.
Qed.

Lemma plain_validationSummary (g : Geometry) (R : object) :
  Plain.validationSummary g R = validationSummary g R.
Proof.
  unfold Plain.validationSummary, validationSummary.
  rewrite plain_cycleTotalM, plain_requiredMin, plain_approxLaneWidth. reflexivity.
Qed.

(** Both validators make the same number of violations out of the checks
    that follow the mandatory fields. *)
Lemma plain_same_number_of_violations (g : Geometry) (R : object) :
  length (Plain.laneErrors g R (Plain.requiredErrors g R (Plain.sidewalkErrors g R [])))
  = length (laneErrors g R (requiredErrors g R (sidewalkErrors g R []))).
Proof.
  unfold Plain.laneErrors, Plain.requiredErrors, Plain.sidewalkErrors, Plain.push,
    laneErrors, requiredErrors, sidewalkErrors, addError.
  rewrite plain_requiredMin, plain_approxLaneWidth.
  destruct (sidewalkLeftM g <? prop R "sidewalk_min_m")%float;
    destruct (sidewalkRightM g <? prop R "sidewalk_min_m")%float;
    destruct (totalWidthM g <? requiredMin g R)%float;
    destruct (approxLaneWidth g R <? prop R "lane_min_m")%float;
    destruct (busTraffic g && (approxLaneWidth g R <? prop R "lane_regular_m")%float);
    reflexivity.
Qed.

Lemma plain_sidewalk_violation (g : Geometry) (R : object) :
  (sidewalkLeftM g <? prop R "sidewalk_min_m")%float = true
  \/ (sidewalkRightM g <? prop R "sidewalk_min_m")%float = true ->
  (length (Plain.laneErrors g R (Plain.requiredErrors g R (Plain.sidewalkErrors g R [])))
   =? 0)%nat = false.
Proof.
  intros H.
  unfold Plain.laneErrors, Plain.requiredErrors, Plain.sidewalkErrors, Plain.push.
  destruct (sidewalkLeftM g <? prop R "sidewalk_min_m")%float;
    destruct (sidewalkRightM g <? prop R "sidewalk_min_m")%float;
    try (destruct H; discriminate);
    destruct (totalWidthM g <? Plain.requiredMin g R)%float;
    destruct (Plain.approxLaneWidth g R <? prop R "lane_min_m")%float;
    destruct (busTraffic g
              && (Plain.approxLaneWidth g R <? prop R "lane_regular_m")%float);
    reflexivity.
Qed.

Lemma plain_validate_returns
    (data : Data) (standards : Standards) (h0 : store) (g : Geometry) :
  catalog_ok h0 -> formMapping data = Ret g ->
  returns (Plain.validateDesignWithStandards data standards) h0 (fun r h =>
    exists l, r = Plain.validateGeometry g (effectiveRules standards) l standards
              /\ h !! l = Some (effectiveRules standards)).
Proof.
  intros Hcat Hg.
  destruct (buildRules_returns standards h0 Hcat) as (l & h & Hrun & Hown).
  eexists _, h. split.
  - unfold Plain.validateDesignWithStandards, bind, lift, deref, ret.
    rewrite Hrun, Hg. reflexivity.
  - exists l. destruct Hown as (_ & _ & Hl).
    rewrite (lookup_total_of h l _ Hl). split; [reflexivity | exact Hl].
Qed.

(** X14: the two validators of index.js agree on the verdict. On every
    request whose form mapping returns, the validator with field-tagged
    violations and the one with plain messages return the same ok; past the
    mandatory-field check of the former they also return the same summary and
    the same number of violations. (A sidewalk width of zero is a missing
    field for the one and a sidewalk below the minimum for the other.) *)
Theorem plain_validator_same_verdict
    (data : Data) (standards : Standards) (h0 : store) (g : Geometry) :
  catalog_ok h0 -> formMapping data = Ret g ->
  returns (validateDesignWithStandards data standards) h0 (fun r _ =>
    returns (Plain.validateDesignWithStandards data standards) h0 (fun r' _ =>
      Plain.ok r' = ok r /\
      (mandatoryErrors g = [] ->
       Plain.summary r' = summary r /\
       length (Plain.errors r') = length (errors r)))).
Proof.
  intros Hcat Hg.
  destruct (formMapping_finite data g Hg) as (_ & Hfl & Hfr & _).
  eapply returns_mono; [apply (validate_returns _ _ _ _ Hcat Hg) |].
  cbv beta. intros r h (l & -> & _).
  eapply returns_mono; [apply (plain_validate_returns _ _ _ _ Hcat Hg) |].
  cbv beta. intros r' h' (l' & -> & _).
  set (R := effectiveRules standards).
  split.
  - unfold validateGeometry, Plain.validateGeometry.
    rewrite mandatoryErrors_missing.
    unfold Plain.mandatoryErrors, Plain.push, missing.
    destruct (truthy (totalWidthM g)) eqn:Ht; [| destruct (truthy (lanesCount g)); reflexivity].
    destruct (truthy (lanesCount g)) eqn:Hn; [| reflexivity].
    cbn [negb app length Nat.ltb Nat.leb Plain.ok].
    destruct (truthy (sidewalkLeftM g)) eqn:Hl.
    + destruct (truthy (sidewalkRightM g)) eqn:Hr.
      * cbn [app length Nat.ltb Nat.leb ok]. f_equal.
        apply plain_same_number_of_violations.
      * cbn [app length Nat.ltb Nat.leb ok].
        apply plain_sidewalk_violation. right.
        apply falsy_below_sidewalk_min; assumption.
    + assert (Hv : (length (Plain.laneErrors g R
                      (Plain.requiredErrors g R (Plain.sidewalkErrors g R []))) =? 0)%nat
                   = false).
      { apply plain_sidewalk_violation. left.
        apply falsy_below_sidewalk_min; assumption. }
      rewrite Hv. destruct (truthy (sidewalkRightM g)); reflexivity.
  - intros Hm.
    rewrite (validateGeometry_checked g R l standards Hm). cbn [summary errors].
    apply mandatoryErrors_nil in Hm. destruct Hm as (Ht & Hn & _ & _).
    unfold Plain.validateGeometry, Plain.mandatoryErrors. rewrite Ht, Hn.
    cbn [negb length Nat.ltb Nat.leb Plain.summary Plain.errors].
    rewrite plain_validationSummary. split; [reflexivity |].
    apply plain_same_number_of_violations.
Qed.

Lemma plain_validator_same_verdict_witness :
  returns (validateDesignWithStandards busRequest allStandards) module_store
    (fun r _ =>
       returns (Plain.validateDesignWithStandards busRequest allStandards)
         module_store (fun r' _ =>
         Plain.ok r' = ok r /\
         (mandatoryErrors busGeometry = [] ->
          Plain.summary r' = summary r /\
          length (Plain.errors r') = length (errors r)))).
Proof.
  apply (plain_validator_same_verdict busRequest allStandards module_store busGeometry).
  - repeat split.
  - vm_compute. reflexivity.
Defined.

(** ** The earlier validator *)

Lemma returns_spread_own (h0 h : store) rules (t : object) :
  owns h0 h rules t ->
  returns (spread [rules]) h (fun l h' =>
    owns h0 h' l t /\ owns h0 h' rules t /\ l <> rules).
Proof.
  intros (Hsub & Hnew & Hl).
  pose proof (fresh_unused h) as Hf.
  assert (Hne : fresh (dom h) <> rules).
  { intros Heq. rewrite Heq, Hl in Hf. discriminate. }
  exists (fresh (dom h)), (<[fresh (dom h) := t]> h). split.
  - unfold spread, alloc. cbn [foldl].
    rewrite (lookup_total_of h rules t Hl), (right_id_L ∅ (∪)). reflexivity.
  - split; [| split; [| exact Hne]].
    + split; [| split].
      * etrans; [exact Hsub |]. apply insert_subseteq, Hf.
      * eapply extends_unused; eassumption.
      * apply lookup_insert_eq.
    + split; [| split; [exact Hnew |]].
      * etrans; [exact Hsub |]. apply insert_subseteq, Hf.
      * rewrite lookup_insert_ne by exact Hne. exact Hl.
Qed.

Lemma returns_set_beside (h0 h : store) l (t : object) l2 (t2 : object) k v :
  owns h0 h l t -> owns h0 h l2 t2 -> l <> l2 ->
  returns (set l k v) h (fun _ h' =>
    owns h0 h' l (<[k := v]> t) /\ owns h0 h' l2 t2).
Proof.
  intros (Hsub & Hnew & Hl) (_ & Hnew2 & Hl2) Hne.
  eexists _, _. split; [reflexivity |].
  rewrite (lookup_total_of h l t Hl).
  split; (split; [apply insert_subseteq_r; assumption | split; [assumption |]]).
  - apply lookup_insert_eq.
  - rewrite lookup_insert_ne by exact Hne. exact Hl2.
Qed.

Ltac run_prim2 :=
  first
    [ eapply returns_spread1; eassumption
    | eapply returns_spread2; eassumption
    | eapply returns_spread_own; eassumption
    | eapply returns_get_own; eassumption
    | eapply returns_get_catalog; [ eapply proj1; eassumption | eassumption ]
    | eapply returns_set_beside; [ eassumption | eassumption | assumption ]
    | eapply returns_set_own; eassumption
    | eapply returns_ret_unit; eassumption
    | eapply returns_ret_ref; eassumption ].

Ltac run_intro2 :=
  let a := fresh "a" in
  let h := fresh "h" in
  let H := fresh "Hown" in
  intros a h H; cbv beta in H |- *;
  lazymatch type of H with
  | _ = _ /\ _ = _ => destruct H as [-> ->]
  | owns _ _ _ _ /\ owns _ _ _ _ /\ _ <> _ =>
      let H1 := fresh "Hown" in
      let H2 := fresh "Hown" in
      let H3 := fresh "Hne" in
      destruct H as (H1 & H2 & H3)
  | owns _ _ _ _ /\ owns _ _ _ _ =>
      let H1 := fresh "Hown" in
      let H2 := fresh "Hown" in
      destruct H as (H1 & H2)
  | _ => idtac
  end.

Ltac run_all2 :=
  lazymatch goal with
  | |- returns (bind _ _) _ _ => eapply returns_bind; [ run_all2 | run_intro2; run_all2 ]
  | |- returns _ _ _ => run_prim2
  end.

(** In any store where the catalog is intact the earlier [buildRules] returns
    a new object holding the table [legacyRules]. *)
Lemma legacy_buildRules_returns (standards : Standards) (h0 : store) :
  catalog_ok h0 ->
  returns (Legacy.buildRules standards) h0 (fun l h =>
    owns h0 h l (legacyRules standards)).
Proof.
  intros (Hbase & Hrast & Hera & Hefa & Hstvo).
  assert (Hsub : h0 ⊆ h0) by reflexivity.
  destruct standards as [[] [] [] []]; unfold Legacy.buildRules;
    cbn [applyRast applyEra applyEfa applyStvo].
  all: eapply returns_mono; [ run_all2 | ].
  all: cbv beta; intros l h (Hs & Hn & Hl); (split; [exact Hs | split; [exact Hn |]]).
  all: rewrite Hl; f_equal; by_evaluation.
Qed.

Lemma legacyRules_closed_form (standards : Standards) :
  legacyRules standards
  = <["cycle_radfahr_min_m" :=
        if applyEra standards then 1.85%float else 1.8%float]>
      (effectiveRules standards).
Proof. destruct standards as [[] [] [] []]; by_evaluation. Qed.

(** X15: the earlier [buildRules] (part_000) returns the table of the current
    one except for one value: without the ERA standard its
    cycle_radfahr_min_m is 1.8, the larger of cycle_min_m and 1.8, where the
    current one has 1.85; so in the earlier version the ERA flag does change
    the table. *)
Theorem legacy_rules_differ_in_one_value (standards : Standards) (h0 : store) :
  catalog_ok h0 ->
  returns (Legacy.buildRules standards) h0 (fun l h =>
    returns (buildRules standards) h0 (fun l' h' =>
      exists t t' : object, h !! l = Some t /\ h' !! l' = Some t' /\
        t = <["cycle_radfahr_min_m" :=
                if applyEra standards then 1.85%float else 1.8%float]> t' /\
        (applyEra standards = true -> t = t'))).
Proof.
  intros Hcat.
  eapply returns_mono; [apply legacy_buildRules_returns, Hcat |].
  cbv beta. intros l h (_ & _ & Hl).
  eapply returns_mono; [apply buildRules_returns, Hcat |].
  cbv beta. intros l' h' (_ & _ & Hl').
  exists (legacyRules standards), (effectiveRules standards).
  split; [exact Hl |]. split; [exact Hl' |].
  split; [apply legacyRules_closed_form |].
  intros Hera. rewrite legacyRules_closed_form, Hera.
  apply insert_id.
  destruct standards as [[] [] [] []]; try discriminate Hera; by_evaluation.
Qed.

Lemma legacy_rules_differ_in_one_value_witness :
  returns (Legacy.buildRules noStandards) module_store (fun l h =>
    returns (buildRules noStandards) module_store (fun l' h' =>
      exists t t' : object, h !! l = Some t /\ h' !! l' = Some t' /\
        t = <["cycle_radfahr_min_m" := 1.8%float]> t' /\
        (false = true -> t = t'))).
Proof.
  apply (legacy_rules_differ_in_one_value noStandards module_store).
  repeat split.
Defined.

Lemma legacy_validate_returns
    (data : Legacy.Data) (standards : Standards) (h0 : store) (g : Geometry) :
  catalog_ok h0 -> Legacy.readInput data = Ret g ->
  returns (Legacy.validateDesignWithStandards data standards) h0 (fun r h =>
    exists l, r = Legacy.validateGeometry g (legacyRules standards) l standards
              /\ h0 ⊆ h /\ h !! l = Some (legacyRules standards)).
Proof.
  intros Hcat Hg.
  destruct (legacy_buildRules_returns standards h0 Hcat) as (l & h & Hrun & Hown).
  eexists _, h. split.
  - unfold Legacy.validateDesignWithStandards, bind, lift, deref, ret.
    rewrite Hrun, Hg. reflexivity.
  - exists l. destruct Hown as (Hsub & _ & Hl).
    rewrite (lookup_total_of h l _ Hl). repeat split; assumption.
Qed.

Lemma legacy_checked (g : Geometry) (R : object) l standards :
  Legacy.mandatoryErrors g = [] ->
  Legacy.validateGeometry g R l standards
  = {| Legacy.ok :=
         (length (Legacy.laneErrors g R
                    (Legacy.requiredErrors g R (Legacy.sidewalkErrors g R [])))
          =? 0)%nat;
       Legacy.errors :=
         Legacy.laneErrors g R
           (Legacy.requiredErrors g R (Legacy.sidewalkErrors g R []));
       Legacy.summary := Legacy.Full g (Legacy.computed g R) l standards |}.
Proof. intros Hm. unfold Legacy.validateGeometry. rewrite Hm. reflexivity. Qed.

Lemma legacy_no_violation_iff (g : Geometry) (R : object) :
  Legacy.laneErrors g R (Legacy.requiredErrors g R (Legacy.sidewalkErrors g R [])) = []
  <->
  truthy (sidewalkLeftM g)
  && (sidewalkLeftM g <? prop R "sidewalk_min_m")%float = false /\
  truthy (sidewalkRightM g)
  && (sidewalkRightM g <? prop R "sidewalk_min_m")%float = false /\
  (totalWidthM g <? Legacy.requiredMinWidthM g R)%float = false /\
  truthy (Legacy.perLaneWidthApprox g R)
  && (Legacy.perLaneWidthApprox g R <? prop R "lane_min_m")%float = false /\
  truthy (Legacy.perLaneWidthApprox g R)
  && (Legacy.perLaneWidthApprox g R <? Legacy.lanesRegularWidthM g R)%float = false /\
  busTraffic g && truthy (Legacy.perLaneWidthApprox g R)
  && (Legacy.perLaneWidthApprox g R <? prop R "lane_regular_m")%float = false.
Proof.
  unfold Legacy.laneErrors, Legacy.requiredErrors, Legacy.sidewalkErrors, Legacy.push.
  destruct (truthy (sidewalkLeftM g)
            && (sidewalkLeftM g <? prop R "sidewalk_min_m")%float);
    destruct (truthy (sidewalkRightM g)
              && (sidewalkRightM g <? prop R "sidewalk_min_m")%float);
    destruct (totalWidthM g <? Legacy.requiredMinWidthM g R)%float;
    destruct (truthy (Legacy.perLaneWidthApprox g R)
              && (Legacy.perLaneWidthApprox g R <? prop R "lane_min_m")%float);
    destruct (truthy (Legacy.perLaneWidthApprox g R)
              && (Legacy.perLaneWidthApprox g R <? Legacy.lanesRegularWidthM g R)%float);
    destruct (busTraffic g && truthy (Legacy.perLaneWidthApprox g R)
              && (Legacy.perLaneWidthApprox g R <? prop R "lane_regular_m")%float);
    cbn [app]; split; intros H; try discriminate; try (repeat split; reflexivity);
    destruct H as (? & ? & ? & ? & ? & ?); discriminate.
Qed.

(** X16: the acceptance criterion of the earlier validator. Past its
    mandatory-field check (total width and lane count) a request is accepted
    exactly when no given sidewalk is below sidewalk_min_m, the total width is
    not below the required minimum and the per-lane width is zero or else
    neither below lane_min_m nor below lanesCount times lane_regular_m (the
    regular width of all lanes together, which is what the hint compares the
    width of one lane with) nor, with bus traffic, below lane_regular_m. *)
Theorem legacy_accepted_iff
    (data : Legacy.Data) (standards : Standards) (h0 : store) (g : Geometry) :
  catalog_ok h0 -> Legacy.readInput data = Ret g -> Legacy.mandatoryErrors g = [] ->
  returns (Legacy.validateDesignWithStandards data standards) h0 (fun r h =>
    exists l (t : object) c,
      Legacy.summary r = Legacy.Full g c l standards /\ h !! l = Some t /\
      (Legacy.ok r = true <-> Legacy.errors r = []) /\
      (Legacy.ok r = true <->
       truthy (sidewalkLeftM g)
       && (sidewalkLeftM g <? prop t "sidewalk_min_m")%float = false /\
       truthy (sidewalkRightM g)
       && (sidewalkRightM g <? prop t "sidewalk_min_m")%float = false /\
       (totalWidthM g <? Legacy.c_requiredMinWidthM c)%float = false /\
       truthy (Legacy.c_perLaneWidthApprox c)
       && (Legacy.c_perLaneWidthApprox c <? prop t "lane_min_m")%float = false /\
       truthy (Legacy.c_perLaneWidthApprox c)
       && (Legacy.c_perLaneWidthApprox c
             <? lanesCount g * prop t "lane_regular_m")%float = false /\
       busTraffic g && truthy (Legacy.c_perLaneWidthApprox c)
       && (Legacy.c_perLaneWidthApprox c <? prop t "lane_regular_m")%float = false)).
Proof.
  intros Hcat Hg Hm.
  eapply returns_mono; [apply (legacy_validate_returns _ _ _ _ Hcat Hg) |].
  cbv beta. intros r h (l & -> & _ & Hl).
  rewrite (legacy_checked g _ l standards Hm).
  cbn [Legacy.ok Legacy.errors Legacy.summary].
  exists l, (legacyRules standards), (Legacy.computed g (legacyRules standards)).
  split; [reflexivity |]. split; [exact Hl |].
  assert (Hlen : forall errs : list string, (length errs =? 0)%nat = true <-> errs = []).
  { intros [| e errs]; cbn; split; intros H; try reflexivity; discriminate. }
  split; [apply Hlen |].
  rewrite Hlen. apply legacy_no_violation_iff.
Qed.

Lemma legacy_accepted_iff_witness :
  returns
    (Legacy.validateDesignWithStandards
       (legacyRequest (Num 10) (Num 2) (Num 2) (Num 2)) allStandards)
    module_store (fun r h =>
    exists l (t : object) c,
      Legacy.summary r = Legacy.Full exampleGeometry c l allStandards /\
      h !! l = Some t /\
      (Legacy.ok r = true <-> Legacy.errors r = []) /\
      (Legacy.ok r = true <->
       true && (2 <? prop t "sidewalk_min_m")%float = false /\
       true && (2 <? prop t "sidewalk_min_m")%float = false /\
       (10 <? Legacy.c_requiredMinWidthM c)%float = false /\
       truthy (Legacy.c_perLaneWidthApprox c)
       && (Legacy.c_perLaneWidthApprox c <? prop t "lane_min_m")%float = false /\
       truthy (Legacy.c_perLaneWidthApprox c)
       && (Legacy.c_perLaneWidthApprox c <? 2 * prop t "lane_regular_m")%float = false /\
       false && truthy (Legacy.c_perLaneWidthApprox c)
       && (Legacy.c_perLaneWidthApprox c <? prop t "lane_regular_m")%float = false)).
Proof.
  apply (legacy_accepted_iff (legacyRequest (Num 10) (Num 2) (Num 2) (Num 2))
           allStandards module_store exampleGeometry).
  - repeat split.
  - vm_compute. reflexivity.
  - vm_compute. reflexivity.
Defined.

Lemma legacy_same_by_widths (g g' : Geometry) (R : object) l l' standards :
  totalWidthM g = totalWidthM g' -> lanesCount g = lanesCount g' ->
  busTraffic g = busTraffic g' ->
  Legacy.sidewalkErrors g R [] = Legacy.sidewalkErrors g' R [] ->
  Legacy.sidewalkTotalM g R = Legacy.sidewalkTotalM g' R ->
  Legacy.cycleTotalMinWidthM g R = Legacy.cycleTotalMinWidthM g' R ->
  Legacy.parkingMinWidthM g R = Legacy.parkingMinWidthM g' R ->
  Legacy.ok (Legacy.validateGeometry g' R l' standards)
  = Legacy.ok (Legacy.validateGeometry g R l standards) /\
  Legacy.errors (Legacy.validateGeometry g' R l' standards)
  = Legacy.errors (Legacy.validateGeometry g R l standards).
Proof.
  intros Ht Hn Hb Hs Hst Hc Hp.
  assert (Hper : Legacy.perLaneWidthApprox g R = Legacy.perLaneWidthApprox g' R).
  { unfold Legacy.perLaneWidthApprox, Legacy.availableForLanesBikeParking.
    rewrite Ht, Hn, Hst, Hc, Hp. reflexivity. }
  assert (Hreq : Legacy.requiredMinWidthM g R = Legacy.requiredMinWidthM g' R).
  { unfold Legacy.requiredMinWidthM, Legacy.lanesMinWidthM.
    rewrite Hn, Hst, Hc, Hp. reflexivity. }
  assert (Hm : Legacy.mandatoryErrors g = Legacy.mandatoryErrors g').
  { unfold Legacy.mandatoryErrors. rewrite Ht, Hn. reflexivity. }
  unfold Legacy.validateGeometry. rewrite <- Hm.
  destruct (Legacy.mandatoryErrors g) as [| e es].
  - cbn [length Nat.ltb Nat.leb Legacy.ok Legacy.errors].
    unfold Legacy.laneErrors, Legacy.requiredErrors, Legacy.lanesRegularWidthM.
    rewrite <- Hs, <- Hper, <- Hreq, <- Ht, <- Hn, <- Hb. split; reflexivity.
  - split; reflexivity.
Qed.

(** X17: in the earlier validator a sidewalk that is missing or zero is no
    violation and is counted with the minimum width: the request gets the
    same verdict and the same messages as the request that differs from it in
    giving that sidewalk the width sidewalk_min_m of the selected rules. *)
Theorem legacy_missing_sidewalk_counts_as_minimum
    (data data' : Legacy.Data) (standards : Standards) (h0 : store) (g : Geometry) :
  catalog_ok h0 -> Legacy.readInput data = Ret g ->
  truthy (sidewalkLeftM g) = false ->
  returns (Legacy.buildRules standards) h0 (fun rules h =>
    forall t : object, h !! rules = Some t ->
    Legacy.readInput data' = Ret (withSidewalkLeft (prop t "sidewalk_min_m") g) ->
    returns (Legacy.validateDesignWithStandards data standards) h0 (fun r _ =>
      returns (Legacy.validateDesignWithStandards data' standards) h0 (fun r' _ =>
        Legacy.ok r' = Legacy.ok r /\ Legacy.errors r' = Legacy.errors r))).
Proof.
  intros Hcat Hg Hz.
  eapply returns_mono; [apply legacy_buildRules_returns, Hcat |].
  cbv beta. intros rules h (_ & _ & Hrules) t Ht Hg'.
  assert (t = legacyRules standards) as -> by congruence.
  eapply returns_mono; [apply (legacy_validate_returns _ _ _ _ Hcat Hg) |].
  cbv beta. intros r h1 (l & -> & _).
  eapply returns_mono; [apply (legacy_validate_returns _ _ _ _ Hcat Hg') |].
  cbv beta. intros r' h2 (l' & -> & _).
  apply legacy_same_by_widths; try reflexivity.
  - unfold Legacy.sidewalkErrors. cbn [withSidewalkLeft sidewalkLeftM sidewalkRightM].
    rewrite Hz, ltb_irrefl, andb_false_r. reflexivity.
  - unfold Legacy.sidewalkTotalM, Legacy.effectiveSidewalkLeftM,
      Legacy.effectiveSidewalkRightM, Legacy.orElse.
    cbn [withSidewalkLeft sidewalkLeftM sidewalkRightM].
    rewrite Hz.
    destruct (truthy (prop (legacyRules standards) "sidewalk_min_m")); reflexivity.
Qed.

Lemma legacy_missing_sidewalk_counts_as_minimum_witness :
  returns (Legacy.buildRules allStandards) module_store (fun rules h =>
    forall t : object, h !! rules = Some t ->
    Legacy.readInput (legacyRequest (Num 10) (Num 1.8) (Num 2) (Num 2))
    = Ret (withSidewalkLeft (prop t "sidewalk_min_m")
             (withSidewalkLeft 0 exampleGeometry)) ->
    returns
      (Legacy.validateDesignWithStandards
         (legacyRequest (Num 10) undefined (Num 2) (Num 2)) allStandards)
      module_store (fun r _ =>
      returns
        (Legacy.validateDesignWithStandards
           (legacyRequest (Num 10) (Num 1.8) (Num 2) (Num 2)) allStandards)
        module_store (fun r' _ =>
        Legacy.ok r' = Legacy.ok r /\ Legacy.errors r' = Legacy.errors r))).
Proof.
  apply (legacy_missing_sidewalk_counts_as_minimum
           (legacyRequest (Num 10) undefined (Num 2) (Num 2))
           (legacyRequest (Num 10) (Num 1.8) (Num 2) (Num 2))
           allStandards module_store (withSidewalkLeft 0 exampleGeometry)).
  - repeat split.
  - vm_compute. reflexivity.
  - vm_compute. reflexivity.
Defined.

(** X18: in the earlier validator parking that is requested with a type other
    than "schraeg" and "quer" (an unknown type, or none) is counted as
    parallel parking: same verdict and same messages as the request that
    differs from it in asking for the type "parallel". *)
Theorem legacy_unknown_parking_counts_as_parallel
    (data data' : Legacy.Data) (standards : Standards) (h0 : store) (g : Geometry) :
  catalog_ok h0 -> Legacy.readInput data = Ret g ->
  Legacy.readInput data' = Ret (withParking true "parallel" g) ->
  parkingNeeded g = true ->
  parkingType g <> "schraeg" -> parkingType g <> "quer" ->
  returns (Legacy.validateDesignWithStandards data standards) h0 (fun r _ =>
    returns (Legacy.validateDesignWithStandards data' standards) h0 (fun r' _ =>
      Legacy.ok r' = Legacy.ok r /\ Legacy.errors r' = Legacy.errors r)).
Proof.
  intros Hcat Hg Hg' Hp Hs Hq.
  eapply returns_mono; [apply (legacy_validate_returns _ _ _ _ Hcat Hg) |].
  cbv beta. intros r h1 (l & -> & _).
  eapply returns_mono; [apply (legacy_validate_returns _ _ _ _ Hcat Hg') |].
  cbv beta. intros r' h2 (l' & -> & _).
  apply legacy_same_by_widths; try reflexivity.
  unfold Legacy.parkingMinWidthM. cbn [withParking parkingNeeded parkingType].
  rewrite Hp. apply String.eqb_neq in Hs, Hq. rewrite Hs, Hq.
  cbn. destruct (parkingType g =? "parallel")%string; reflexivity.
Qed.

Lemma legacy_unknown_parking_counts_as_parallel_witness :
  returns
    (Legacy.validateDesignWithStandards
       (legacyParkingRequest (Num 12) (Num 2) (Num 2) (Num 2) (Str "Laengs"))
       noStandards)
    module_store (fun r _ =>
    returns
      (Legacy.validateDesignWithStandards
         (legacyParkingRequest (Num 12) (Num 2) (Num 2) (Num 2) (Str "parallel"))
         noStandards)
      module_store (fun r' _ =>
      Legacy.ok r' = Legacy.ok r /\ Legacy.errors r' = Legacy.errors r)).
Proof.
  apply (legacy_unknown_parking_counts_as_parallel
           (legacyParkingRequest (Num 12) (Num 2) (Num 2) (Num 2) (Str "Laengs"))
           (legacyParkingRequest (Num 12) (Num 2) (Num 2) (Num 2) (Str "parallel"))
           noStandards module_store
           {| totalWidthM := 12; sidewalkLeftM := 2; sidewalkRightM := 2;
              lanesCount := 2; busTraffic := false; cycleNeeded := false;
              cycleType := ""; cycleSides := ""; parkingNeeded := true;
              parkingType := "laengs" |}).
  - repeat split.
  - vm_compute. reflexivity.
  - vm_compute. reflexivity.
  - reflexivity.
  - discriminate.
  - discriminate.
Defined.

Lemma legacy_rejected_has_messages (g : Geometry) (R : object) l standards :
  Legacy.ok (Legacy.validateGeometry g R l standards) = false ->
  Legacy.errors (Legacy.validateGeometry g R l standards) <> [].
Proof.
  unfold Legacy.validateGeometry.
  destruct (Legacy.mandatoryErrors g) as [| e es];
    cbn [length Nat.ltb Nat.leb Legacy.ok Legacy.errors].
  - destruct (Legacy.laneErrors g R _) as [| e es]; cbn; [discriminate |].
    intros _ H. discriminate H.
  - intros _ H. discriminate H.
Qed.

(** X19: the earlier route validates only when a standard is selected. When
    none of the twelve spellings of the four flags is switched on it answers
    200 "ok" with no summary and no messages and creates no object, whatever
    the form holds: also for a form the validator would reject, or throw
    on. *)
Theorem legacy_route_skips_validation_without_standards
    (body : Legacy.Body) (h0 : store) :
  noneSelected (legacySelection body) = true ->
  returns (snd (Legacy.postVerkehrsplanung body)) h0 (fun resp h =>
    h = h0 /\ Legacy.responseStandards resp = noStandards /\
    Legacy.httpStatus resp = 200%nat /\ Legacy.status resp = "ok" /\
    Legacy.responseErrors resp = None /\ Legacy.responseSummary resp = None).
Proof.
  intros Hnone.
  unfold Legacy.postVerkehrsplanung. cbn [snd].
  fold (legacySelection body).
  change (negb (applyRast (legacySelection body))
          && negb (applyEra (legacySelection body))
          && negb (applyEfa (legacySelection body))
          && negb (applyStvo (legacySelection body)))
    with (noneSelected (legacySelection body)).
  rewrite Hnone. apply returns_ret. cbn.
  repeat split; try reflexivity.
  unfold noneSelected in Hnone.
  destruct (legacySelection body) as [[] [] [] []]; try discriminate Hnone.
  reflexivity.
Qed.

Lemma legacy_route_skips_validation_without_standards_witness :
  returns
    (snd (Legacy.postVerkehrsplanung
            (legacyBody
               (legacyParkingRequest undefined undefined undefined undefined (Num 1))
               (Str "nein"))))
    module_store (fun resp h =>
    h = module_store /\ Legacy.responseStandards resp = noStandards /\
    Legacy.httpStatus resp = 200%nat /\ Legacy.status resp = "ok" /\
    Legacy.responseErrors resp = None /\ Legacy.responseSummary resp = None).
Proof.
  apply (legacy_route_skips_validation_without_standards
           (legacyBody
              (legacyParkingRequest undefined undefined undefined undefined (Num 1))
              (Str "nein"))
           module_store).
  vm_compute. reflexivity.
Defined.

(** X20: with a standard selected the earlier route answers by the
    validator's verdict: 200 "ok" with the summary and no messages when the
    request is accepted, 400 "error" with the summary and a non-empty list of
    messages when it is rejected; the selection read from the flags is sent
    back. *)
Theorem legacy_response_reflects_verdict
    (body : Legacy.Body) (h0 : store) (g : Geometry) :
  catalog_ok h0 ->
  noneSelected (legacySelection body) = false ->
  Legacy.readInput (Legacy.form body) = Ret g ->
  returns (snd (Legacy.postVerkehrsplanung body)) h0 (fun resp h =>
    Legacy.responseStandards resp = legacySelection body /\
    exists l (t : object),
      h !! l = Some t /\
      let r := Legacy.validateGeometry g t l (legacySelection body) in
      Legacy.responseSummary resp = Some (Legacy.summary r) /\
      if Legacy.ok r then
        Legacy.httpStatus resp = 200%nat /\ Legacy.status resp = "ok" /\
        Legacy.responseErrors resp = None
      else
        Legacy.httpStatus resp = 400%nat /\ Legacy.status resp = "error" /\
        Legacy.responseErrors resp = Some (Legacy.errors r) /\
        Legacy.errors r <> []).
Proof.
  intros Hcat Hnone Hg.
  unfold Legacy.postVerkehrsplanung. cbn [snd].
  fold (legacySelection body).
  change (negb (applyRast (legacySelection body))
          && negb (applyEra (legacySelection body))
          && negb (applyEfa (legacySelection body))
          && negb (applyStvo (legacySelection body)))
    with (noneSelected (legacySelection body)).
  rewrite Hnone.
  eapply returns_bind; [apply (legacy_validate_returns _ _ _ _ Hcat Hg) |].
  cbv beta. intros r h (l & -> & _ & Hl).
  destruct (Legacy.ok (Legacy.validateGeometry g _ l _)) eqn:Hok;
    cbn [negb]; apply returns_ret; (split; [reflexivity |]);
    exists l, (legacyRules (legacySelection body)); (split; [exact Hl |]);
    cbv zeta; rewrite Hok; cbn; repeat split; try reflexivity.
  apply legacy_rejected_has_messages, Hok.
Qed.

Lemma legacy_response_reflects_verdict_witness :
  returns
    (snd (Legacy.postVerkehrsplanung
            (legacyBody (legacyRequest (Num 10) (Num 2) (Num 2) (Num 2)) (Str "Ja"))))
    module_store (fun resp h =>
    Legacy.responseStandards resp
    = legacySelection
        (legacyBody (legacyRequest (Num 10) (Num 2) (Num 2) (Num 2)) (Str "Ja")) /\
    exists l (t : object),
      h !! l = Some t /\
      let r :=
        Legacy.validateGeometry exampleGeometry t l
          (legacySelection
             (legacyBody (legacyRequest (Num 10) (Num 2) (Num 2) (Num 2)) (Str "Ja"))) in
      Legacy.responseSummary resp = Some (Legacy.summary r) /\
      if Legacy.ok r then
        Legacy.httpStatus resp = 200%nat /\ Legacy.status resp = "ok" /\
        Legacy.responseErrors resp = None
      else
        Legacy.httpStatus resp = 400%nat /\ Legacy.status resp = "error" /\
        Legacy.responseErrors resp = Some (Legacy.errors r) /\
        Legacy.errors r <> []).
Proof.
  apply (legacy_response_reflects_verdict
           (legacyBody (legacyRequest (Num 10) (Num 2) (Num 2) (Num 2)) (Str "Ja"))
           module_store exampleGeometry).
  - repeat split.
  - vm_compute. reflexivity.
  - vm_compute. reflexivity.
Defined.


